(** * Verification of process_portfolio.py

    A shallow embedding of [src/process_portfolio.py]: the normalisation of a
    brokerage export ([clean_fidelity_csv]), the writer of the two output
    files ([save_transactions_summary]) and the driver that runs both over
    every raw file ([process_raw_files]).

    The program is written against pandas.  What pandas does is modelled as
    follows.
    - A frame carries its index labels: a frame is a list of labelled rows, and
      [dropna] and [sort_values] move a row together with its label.
    - A Python string is held as its UTF-8 encoding, and [str.strip] removes
      the characters that Python takes for whitespace, those beyond ASCII
      included.
    - A numeric column is of one type, as [read_csv] infers it: 64-bit
      integers, signed or unsigned, when every cell holds an integer, which
      numpy multiplies with wrap-around and does not round; binary64 floats
      otherwise, in the representation of [SpecFloat], the missing number
      being NaN.
    - A cell of the raw file is its text, or is missing.
    - [df[name]] is a column when one column has that name and a frame when
      several have it, on which the calls of lines 34 to 42 raise.
    - [pd.to_datetime] and [pd.to_numeric] are built on a date parser and a
      number parser that are parameters of the development (class [Pandas]);
      so are the type that [read_csv] infers for a column and the [argsort]
      that [sort_values] calls with its default [kind], of which only what
      numpy documents is assumed: it returns a permutation of the positions
      that puts the keys in ascending order.
    - Python objects live in a heap, so that two names for one frame are two
      references to one object. *)

From Stdlib Require Import ZArith Lia List Ascii String Permutation Sorted.
From Stdlib Require Import Floats.SpecFloat.
From stdpp Require Import base option list strings gmap pretty sorting.

(** ** Python strings *)

Module Py.

(** A Python [str] is held as its UTF-8 encoding, so that a character is
    one to four bytes of the [string]. *)

(** The UTF-8 encoding of a code point below U+10000. *)
Definition utf8 (cp : N) : string :=
  if (cp <? 128)%N then String (ascii_of_N cp) EmptyString
  else if (cp <? 2048)%N then
    String (ascii_of_N (192 + cp / 64))
      (String (ascii_of_N (128 + cp mod 64)) EmptyString)
  else
    String (ascii_of_N (224 + cp / 4096))
      (String (ascii_of_N (128 + (cp / 64) mod 64))
         (String (ascii_of_N (128 + cp mod 64)) EmptyString)).

(** The characters that [str.isspace] accepts and [str.strip] removes:
    U+0009 to U+000D, U+001C to U+0020, U+0085, U+00A0, U+1680, U+2000 to
    U+200A, U+2028, U+2029, U+202F, U+205F and U+3000. *)
Definition whitespace_code_points : list N :=
  [9; 10; 11; 12; 13; 28; 29; 30; 31; 32; 133; 160; 5760;
   8192; 8193; 8194; 8195; 8196; 8197; 8198; 8199; 8200; 8201; 8202;
   8232; 8233; 8239; 8287; 12288]%N.

Definition whitespace : list string := utf8 <$> whitespace_code_points.

(** [s] without the prefix [p]. *)
Fixpoint drop_prefix (p s : string) : option string :=
  match p, s with
  | EmptyString, _ => Some s
  | String a p', String b s' =>
      if Ascii.eqb a b then drop_prefix p' s' else None
  | String _ _, EmptyString => None
  end.

(** [s] without its first character, when that is one of [chars]. *)
Fixpoint drop_char (chars : list string) (s : string) : option string :=
  match chars with
  | [] => None
  | c :: chars' =>
      match drop_prefix c s with
      | Some s' => Some s'
      | None => drop_char chars' s
      end
  end.

(** [s] without the characters of [chars] at its front; [fuel] bounds their
    number. *)
Fixpoint lstrip_chars (fuel : nat) (chars : list string) (s : string) : string :=
  match fuel with
  | 0 => s
  | S fuel' =>
      match drop_char chars s with
      | Some s' => lstrip_chars fuel' chars s'
      | None => s
      end
  end.

Fixpoint rev (s : string) : string :=
  match s with
  | EmptyString => EmptyString
  | String c s' => rev s' +:+ String c EmptyString
  end.

Definition lstrip (s : string) : string :=
  lstrip_chars (String.length s) whitespace s.

(** The same from the end: the bytes of [s] and of the characters are read
    backwards. *)
Definition rstrip (s : string) : string :=
  rev (lstrip_chars (String.length s) (rev <$> whitespace) (rev s)).

(** [s.strip()] *)
Definition strip (s : string) : string := rstrip (lstrip s).

(** [sub in s] on two strings: [sub] is a prefix of [s] or occurs further
    right. *)
Fixpoint str_in (sub s : string) : bool :=
  String.prefix sub s ||
  match s with
  | EmptyString => false
  | String _ s' => str_in sub s'
  end.

(** [Path(name).stem]: the name up to its last dot, when that dot is neither
    the first nor the last character. *)
Fixpoint rfind_dot (s : string) : option nat :=
  match s with
  | EmptyString => None
  | String c s' =>
      match rfind_dot s' with
      | Some i => Some (S i)
      | None => if Ascii.eqb c "."%char then Some 0 else None
      end
  end.

Definition stem (name : string) : string :=
  match rfind_dot name with
  | Some i =>
      if (0 <? i) && (i <? String.length name - 1)
      then String.substring 0 i name
      else name
  | None => name
  end.

End Py.

(** ** binary64 numbers *)

Module F64.

Definition float : Type := spec_float.

Definition prec : Z := 53.
Definition emax : Z := 1024.

Definition nan : float := S754_nan.

Definition isnan (x : float) : bool :=
  match x with
  | S754_nan => true
  | _ => false
  end.

Definition mul : float -> float -> float := SFmul prec emax.
Definition div : float -> float -> float := SFdiv prec emax.

(** The integer nearest to [n / d], the even one of the two when [n / d] lies
    half way between them ([0 <= n], [0 < d]). *)
Definition div_half_even (n d : Z) : Z :=
  let q := (n / d)%Z in
  let r := (n mod d)%Z in
  match (2 * r ?= d)%Z with
  | Lt => q
  | Gt => (q + 1)%Z
  | Eq => if Z.even q then q else (q + 1)%Z
  end.

(** The float of an integer of magnitude [n] and sign [s]. *)
Definition of_int (s : bool) (n : Z) : float :=
  binary_normalize prec emax (cond_Zopp s n) 0 s.

(** The float nearest to the integer [n], ties to even: the conversion of
    a 64-bit integer to binary64. *)
Definition of_Z (n : Z) : float := binary_normalize prec emax n 0 false.

(** C's [rint] in the default rounding mode: the nearest integral value, ties
    to even; the sign is kept, also on a zero result. *)
Definition rint (x : float) : float :=
  match x with
  | S754_finite s m e =>
      if (0 <=? e)%Z then x
      else of_int s (div_half_even (Zpos m) (2 ^ (- e)))
  | _ => x
  end.

(** [100.0], numpy's [power_of_ten(2)]. *)
Definition hundred : float := of_int false 100.

(** [ndarray.round(2)]: numpy multiplies by [10 ** decimals], applies [rint]
    and divides by [10 ** decimals]. *)
Definition round2 (x : float) : float := div (rint (mul x hundred)) hundred.

Definition sign_str (s : bool) : string := if s then "-" else "".

Definition two_digits (n : Z) : string :=
  if (n <? 10)%Z then "0" +:+ pretty n else pretty n.

(** [format(x, ".2f")]: the decimal expansion of the exact value of [x],
    correctly rounded to two places (ties to even); ["nan"] and ["inf"] for
    the special values. *)
Definition format_2f (x : float) : string :=
  match x with
  | S754_nan => "nan"
  | S754_infinity s => sign_str s +:+ "inf"
  | S754_zero s => sign_str s +:+ "0.00"
  | S754_finite s m e =>
      let n := if (0 <=? e)%Z then (Zpos m * 2 ^ e * 100)%Z
               else div_half_even (Zpos m * 100) (2 ^ (- e)) in
      sign_str s +:+ pretty (n / 100)%Z +:+ "." +:+ two_digits (n mod 100)
  end.

End F64.

(** ** The numbers of a column *)

(** A value of a numeric column: of an [int64] column, of a [uint64] column
    or of a [float64] column, where the missing number is NaN. *)
Inductive number :=
  | Int64 (n : Z)
  | UInt64 (n : Z)
  | Float (x : F64.float).

Module Number.

Definition to_float (v : number) : F64.float :=
  match v with
  | Int64 n | UInt64 n => F64.of_Z n
  | Float x => x
  end.

(** [isna] *)
Definition isna (v : number) : bool :=
  match v with
  | Float x => F64.isnan x
  | _ => false
  end.

(** [a * b] on the values of two columns.  numpy multiplies two [int64]
    columns, and two [uint64] columns, in 64-bit integers, which wrap around;
    any other pair of columns is multiplied in [float64]. *)
Definition mul (a b : number) : number :=
  match a, b with
  | Int64 x, Int64 y => Int64 ((x * y + 2 ^ 63) mod 2 ^ 64 - 2 ^ 63)
  | UInt64 x, UInt64 y => UInt64 ((x * y) mod 2 ^ 64)
  | _, _ => Float (F64.mul (to_float a) (to_float b))
  end.

(** [.round(2)] on a value of a column: an integer column is left as it
    is. *)
Definition round2 (v : number) : number :=
  match v with
  | Float x => Float (F64.round2 x)
  | _ => v
  end.

End Number.

(** ** The data model *)

Inductive TransactionType := SELL | BUY.

#[global] Instance TransactionType_eq_dec : EqDecision TransactionType.
Proof. solve_decision. Defined.

(** A cell of the raw file as [read_csv] delivers it: its text, or [None] for
    a missing value (NaN). *)
Abbreviation cell := (option string) (only parsing).

(** The raw frame: the header names and the data rows, each row holding one
    cell per column.  The index of a raw frame is [0, 1, ..., n-1]. *)
Record RawFrame := mkRaw {
  columns : list string;
  rows : list (list cell)
}.

(** A row of the cleaned frame.  [settlement_date] is a timestamp, [None] is
    NaT; the three numbers are values of the columns Quantity, Price and Total
    Amount, each column being of one type; [transaction_type] is [None] until [dropna]
    has removed the rows that carry none. *)
Record NormalizedRow := mkRow {
  settlement_date : option Z;
  symbol : option string;
  stock_name : option string;
  quantity : number;
  price : number;
  total_amount : number;
  transaction_type : option TransactionType
}.

(** The cleaned frame: rows with their index labels. *)
Abbreviation Frame := (list (nat * NormalizedRow)) (only parsing).

(** What the program raises.  [DateParseError] is the error of
    [pd.to_datetime] on a text that is no date, [ReindexError] the
    [ValueError] of pandas on aligning a value whose index has one label
    twice. *)
Inductive exn :=
  | ValueError (msg : string)
  | KeyError (name : string)
  | DateParseError
  | AttributeError
  | TypeError
  | ReindexError
  | ReadError (path : string).

(** The outcome of a computation that may raise. *)
Inductive result (A : Type) :=
  | Ok (x : A)
  | Raise (e : exn).
Arguments Ok {A} x.
Arguments Raise {A} e.

Definition rbind {A B} (m : result A) (k : A -> result B) : result B :=
  match m with
  | Ok x => k x
  | Raise e => Raise e
  end.

Notation "'let*' x := m 'in' k" := (rbind m (fun x => k))
  (at level 10, x name, m at level 100, k at level 200).

(** ** Output artefacts and the world *)

(** A value of a column that the formatter rewrites: a number, or the text
    that replaced it. *)
Inductive value :=
  | Num (x : number)
  | Str (s : string).

(** A row of the display frame [output_df]. *)
Record OutputRow := mkOut {
  out_date : option Z;
  out_symbol : option string;
  out_stock_name : option string;
  out_type : option TransactionType;
  out_quantity : number;
  out_price : value;
  out_total : value
}.

(** A field of a written CSV file: empty (pandas' [na_rep]), a text, or a
    date or a number in pandas' default rendering. *)
Inductive field :=
  | Empty
  | Text (s : string)
  | DateField (d : Z)
  | FloatField (x : F64.float).

Record csv := mkCsv {
  header : list string;
  lines : list (list field)
}.

(** Python objects: the cleaned frame and the display frame. *)
Inductive pyobj :=
  | Cleaned (f : list (nat * NormalizedRow))
  | Display (f : list (nat * OutputRow)).

(** What the program prints: the lines that carry data, in order; the fixed
    headings between them are left out. *)
Inductive message :=
  | AvailableColumns (cols : list string)
  | Processing (path : string)
  | CleanedSavedTo (path : string)
  | SummarySavedTo (path : string)
  | MostRecent (head : list (nat * OutputRow))
  | TotalTransactions (n : nat)
  | UniqueStocks (n : nat)
  | TypeCount (t : TransactionType) (n : nat)
  | ErrorProcessing (path : string) (e : exn).

(** An entry of [processed_files]. *)
Record processed := mkProcessed {
  p_input : string;
  p_clean : string;
  p_results : string;
  p_transactions : nat
}.

(** The world the program runs in: the names that [glob('*.csv')] finds in
    [orders/raw] ([None] when the directory does not exist), the raw files as
    [read_csv] parses them, the files written so far (oldest first), the lines
    printed so far and the heap of Python objects. *)
Record world := mkWorld {
  raw_dir : option (list string);
  disk : gmap string RawFrame;
  written : list (string * csv);
  stdout : list message;
  heap : gmap nat pyobj
}.

(** Computations on the world that may raise; what was printed and written
    before an exception stays. *)
Definition M (A : Type) : Type := world -> result A * world.

Definition ret {A} (x : A) : M A := fun w => (Ok x, w).

Definition raise {A} (e : exn) : M A := fun w => (Raise e, w).

Definition bind {A B} (m : M A) (k : A -> M B) : M B := fun w =>
  match m w with
  | (Ok x, w') => k x w'
  | (Raise e, w') => (Raise e, w')
  end.

(** [try: body except Exception as e: handler(e)] *)
Definition try_except {A} (body : M A) (handler : exn -> M A) : M A := fun w =>
  match body w with
  | (Ok x, w') => (Ok x, w')
  | (Raise e, w') => handler e w'
  end.

Notation "'let!' x := m 'in' k" := (bind m (fun x => k))
  (at level 10, x name, m at level 100, k at level 200).
Notation "'let!' ' p := m 'in' k" := (bind m (fun x => match x with p => k end))
  (at level 10, p pattern, m at level 100, k at level 200).
Notation "m >> k" := (bind m (fun _ => k)) (at level 90, right associativity).

Definition lift {A} (r : result A) : M A := fun w => (r, w).

Definition print (l : message) : M unit := fun w =>
  (Ok tt, mkWorld (raw_dir w) (disk w) (written w) (stdout w ++ [l]) (heap w)).

(** [pd.read_csv(file_path)] *)
Definition read_csv (file_path : string) : M RawFrame := fun w =>
  match disk w !! file_path with
  | Some df => (Ok df, w)
  | None => (Raise (ReadError file_path), w)
  end.

(** [to_csv(path)] *)
Definition write_file (path : string) (content : csv) : M unit := fun w =>
  (Ok tt, mkWorld (raw_dir w) (disk w) (written w ++ [(path, content)]) (stdout w) (heap w)).

(** A new object. *)
Definition alloc (o : pyobj) : M nat := fun w =>
  let l := fresh (dom (heap w)) in
  (Ok l, mkWorld (raw_dir w) (disk w) (written w) (stdout w) (<[l := o]> (heap w))).

(** The object behind a reference. *)
Definition load (l : nat) : M pyobj := fun w =>
  match heap w !! l with
  | Some o => (Ok o, w)
  | None => (Raise (KeyError "object"), w)
  end.

(** An object mutated in place. *)
Definition store (l : nat) (o : pyobj) : M unit := fun w =>
  (Ok tt, mkWorld (raw_dir w) (disk w) (written w) (stdout w) (<[l := o]> (heap w))).

(** The frame behind a reference, as the kind of frame the caller uses it
    for; the other kind lacks the columns asked for. *)
Definition load_cleaned (l : nat) : M (list (nat * NormalizedRow)) :=
  let! o := load l in
  match o with
  | Cleaned f => ret f
  | Display _ => raise (KeyError "Transaction Type")
  end.

Definition load_display (l : nat) : M (list (nat * OutputRow)) :=
  let! o := load l in
  match o with
  | Display f => ret f
  | Cleaned _ => raise (KeyError "display")
  end.

(** ** pandas operations on the raw frame *)

Definition needed_columns : list string :=
  ["Settlement Date"; "Symbol"; "Description"; "Quantity"; "Price"; "Action"].

(** [df.columns = df.columns.str.strip()] *)
Definition strip_columns (df : RawFrame) : RawFrame :=
  mkRaw (Py.strip <$> columns df) (rows df).

(** [all(col in df.columns for col in needed_columns)] *)
Definition has_needed_columns (df : RawFrame) : bool :=
  forallb (fun col => bool_decide (col ∈ columns df)) needed_columns.

(** [Index.get_loc]: the positions of the columns of that name. *)
Fixpoint get_loc (name : string) (cols : list string) : list nat :=
  match cols with
  | [] => []
  | c :: cols' =>
      (if String.eqb c name then [0] else []) ++ (S <$> get_loc name cols')
  end.

(** What [df[name]] is: a column, or a frame when several columns have that
    name. *)
Inductive selection :=
  | Series (col : list (option string))
  | DataFrame (cols : list (list (option string))).

(** The column at position [j] as a list of cells in index order; a row
    shorter than the header has missing values at its end. *)
Definition column_at (df : RawFrame) (j : nat) : list (option string) :=
  (fun r => mjoin (r !! j)) <$> rows df.

(** [df[name]]: [KeyError] when no column has that name. *)
Definition getitem (df : RawFrame) (name : string) : result selection :=
  match get_loc name (columns df) with
  | [] => Raise (KeyError name)
  | [j] => Ok (Series (column_at df j))
  | js => Ok (DataFrame (column_at df <$> js))
  end.

(** [str(x)] of a cell: its text, ["nan"] for the missing value. *)
Definition str (x : cell) : string :=
  match x with
  | Some s => s
  | None => "nan"
  end.

(** The lambda of lines 42-44:
    ['SELL' if 'SOLD' in str(x) else 'BUY' if 'BOUGHT' in str(x) else None] *)
Definition classify (x : cell) : option TransactionType :=
  if Py.str_in "SOLD" (str x) then Some SELL
  else if Py.str_in "BOUGHT" (str x) then Some BUY
  else None.

(** [dropna(subset=['Transaction Type'])] *)
Definition dropna_type (f : Frame) : Frame :=
  filter (fun r => is_Some (transaction_type r.2)) f.

(** [DataFrame.take]: the rows at the given positions, in that order.  A
    position out of range, an [IndexError] in pandas, is skipped; the indexer
    of a sort has none. *)
Definition take {A} (f : list A) (indexer : list nat) : list A :=
  omap (fun k => f !! k) indexer.

(** What a number parser reads from a text: an integer literal, with the
    float that it is taken for in a column of floats, or another number. *)
Inductive literal :=
  | Integer (n : Z) (x : F64.float)
  | Decimal (x : F64.float).

(** What is left open of pandas: a date parser, a number parser, the type
    that [read_csv] infers for a column of texts, the sort behind
    [sort_values], and line 42 on a frame without rows that has two columns
    named Action. *)
Class Pandas := {
  (** The date parser behind [pd.to_datetime]: given the column it is parsing
      (pandas infers a format from it) and the text of a cell, it fails
      ([None]), or yields NaT ([Some None]) or a timestamp. *)
  parse_date : list (option string) -> string -> option (option Z);
  (** The number parser behind [read_csv] and [pd.to_numeric]: [None] when
      the text is not a number. *)
  parse_number : string -> option literal;
  (** [read_csv] infers a type for every column; [object_dtype col] tells
      whether it left the column [col] as text, which is what the [.str]
      accessor asks for. *)
  object_dtype : list (option string) -> bool;
  (** The sort that [sort_values] runs on the keys that are not null, with
      its default [kind]: [argsort keys] lists the positions of [keys] in
      sorted order. *)
  argsort : list Z -> list nat;
  (** Line 42 when [df['Action']] is a frame without rows: [DataFrame.apply]
      then does not call the lambda on the columns, and the assignment of
      what it returns either raises or adds no row that has a type. *)
  empty_frame_error : option exn
}.

(** What numpy documents of that sort: the result is a permutation of the
    positions and puts the keys in ascending order.  Nothing is promised on
    the order of equal keys. *)
Class SortLaws (pandas : Pandas) : Prop := {
  argsort_perm : forall keys, argsort keys ≡ₚ seq 0 (length keys);
  argsort_sorted : forall keys, Sorted Z.le (take keys (argsort keys))
}.



Section Pipeline.
Context {pandas : Pandas}.

(** [df[name].str.strip()]: a missing value stays missing; [AttributeError]
    on a column that is not text, and on a frame, which has no [.str]. *)
Definition str_strip (sel : selection) : result (list (option string)) :=
  match sel with
  | Series col =>
      if object_dtype col
      then Ok ((fun c : option string => Py.strip <$> c) <$> col)
      else Raise AttributeError
  | DataFrame _ => Raise AttributeError
  end.

(** What [pd.to_datetime] makes of one cell of the column [col]: a missing
    cell is NaT, a text goes to the parser. *)
Definition parse_cell (col : list (option string)) (c : option string)
  : option (option Z) :=
  match c with
  | None => Some None
  | Some s => parse_date col s
  end.

(** [pd.to_datetime(df[name])], [errors='raise']: one cell that does not
    parse fails the whole column; a frame is taken for a table of date
    parts, which must not have a name twice. *)
Definition to_datetime (sel : selection) : result (list (option Z)) :=
  match sel with
  | Series col =>
      match mapM (parse_cell col) col with
      | Some ds => Ok ds
      | None => Raise DateParseError
      end
  | DataFrame _ => Raise (ValueError "cannot assemble with duplicate keys")
  end.

(** The float of a cell in a column of floats: NaN for a missing cell and,
    under [errors='coerce'], for a text that is not a number. *)
Definition coerce (c : option string) : F64.float :=
  match c ≫= parse_number with
  | Some (Integer _ x) | Some (Decimal x) => x
  | None => F64.nan
  end.

(** The integer of a cell that holds an integer literal. *)
Definition integer (c : option string) : option Z :=
  match c ≫= parse_number with
  | Some (Integer n _) => Some n
  | _ => None
  end.

Definition in_int64 (n : Z) : bool := (- 2 ^ 63 <=? n)%Z && (n <? 2 ^ 63)%Z.
Definition in_uint64 (n : Z) : bool := (0 <=? n)%Z && (n <? 2 ^ 64)%Z.

(** [pd.to_numeric(col, errors='coerce')] on a column.  [read_csv] has
    typed the column: [int64] when every cell holds an integer literal in the
    range of that type, [uint64] when every cell holds one that is not
    negative and at least one is too large for [int64], and [to_numeric]
    leaves the column as it is; any other column comes out as [float64]. *)
Definition to_numeric_series (col : list (option string)) : list number :=
  let floats := (fun c => Float (coerce c)) <$> col in
  match mapM integer col with
  | Some ints =>
      if forallb in_int64 ints then Int64 <$> ints
      else if forallb in_uint64 ints then UInt64 <$> ints
      else floats
  | None => floats
  end.

(** [pd.to_numeric(df[name], errors='coerce')]: [TypeError] on a frame. *)
Definition to_numeric (sel : selection) : result (list number) :=
  match sel with
  | Series col => Ok (to_numeric_series col)
  | DataFrame _ => Raise TypeError
  end.

(** [df['Action'].apply(lambda x: ...)] as it is assigned to the column
    Transaction Type.  On a frame [DataFrame.apply] calls the lambda on each
    column as a whole and gives a value under each column name; assigning
    that to a frame that has rows fails, its index having one label
    twice. *)
Definition apply_classify (df : RawFrame) (sel : selection)
  : result (list (option TransactionType)) :=
  match sel with
  | Series col => Ok (classify <$> col)
  | DataFrame _ =>
      match rows df with
      | [] => match empty_frame_error with
              | Some e => Raise e
              | None => Ok []
              end
      | _ :: _ => Raise ReindexError
      end
  end.

(** [nargsort(items, ascending=False, na_position='last')] of pandas: the
    keys that are not null are reversed, sorted ascending and reversed again;
    the positions of the null keys follow in their order. *)
Definition nargsort_desc (items : list (option Z)) : list nat :=
  let idx := seq 0 (length items) in
  let non_nans := reverse (omap id items) in
  let non_nan_idx := reverse (filter (fun i => is_Some (mjoin (items !! i))) idx) in
  let nan_idx := filter (fun i => ¬ is_Some (mjoin (items !! i))) idx in
  let indexer := take non_nan_idx (argsort non_nans) in
  reverse indexer ++ nan_idx.

(** [sort_values('Settlement Date', ascending=False)] *)
Definition sort_values_desc (f : Frame) : Frame :=
  take f (nargsort_desc ((fun r => settlement_date r.2) <$> f)).

(** Lines 30-44: the cleaned frame before [dropna], one row per raw row under
    the raw row's label.  The columns are computed one by one as in the
    source and assembled by label. *)
Definition cleaned_columns (df : RawFrame) : result Frame :=
  let* c_date := getitem df "Settlement Date" in
  let* dates := to_datetime c_date in
  let* c_symbol := getitem df "Symbol" in
  let* symbols := str_strip c_symbol in
  let* c_descr := getitem df "Description" in
  let* names := str_strip c_descr in
  let* c_qty := getitem df "Quantity" in
  let* quantities := to_numeric c_qty in
  let* c_price := getitem df "Price" in
  let* prices := to_numeric c_price in
  let prices := Number.round2 <$> prices in
  let totals := Number.round2 <$> zip_with Number.mul quantities prices in
  let* c_action := getitem df "Action" in
  let* types := apply_classify df c_action in
  Ok (imap (fun i d =>
         (i, {| settlement_date := d;
                symbol := mjoin (symbols !! i);
                stock_name := mjoin (names !! i);
                quantity := default (Float F64.nan) (quantities !! i);
                price := default (Float F64.nan) (prices !! i);
                total_amount := default (Float F64.nan) (totals !! i);
                transaction_type := mjoin (types !! i) |})) dates).

(** Lines 30-52 of [clean_fidelity_csv]. *)
Definition clean_frame (df : RawFrame) : result Frame :=
  let* cleaned_df := cleaned_columns df in
  let cleaned_df := dropna_type cleaned_df in
  let cleaned_df := sort_values_desc cleaned_df in
  Ok cleaned_df.

(** ** [clean_fidelity_csv] *)

Definition clean_fidelity_csv (file_path : string) : M nat :=
  let! df := read_csv file_path in
  let df := strip_columns df in
  if negb (has_needed_columns df) then
    print (AvailableColumns (columns df)) >>
    raise (ValueError ("Missing required columns in file: " +:+ file_path))
  else
    let! cleaned_df := lift (clean_frame df) in
    alloc (Cleaned cleaned_df).

(** ** [save_transactions_summary] *)

Definition type_name (t : TransactionType) : string :=
  match t with
  | SELL => "SELL"
  | BUY => "BUY"
  end.

Definition text_field (c : option string) : field := from_option Text Empty c.
Definition date_field (d : option Z) : field := from_option DateField Empty d.
Definition type_field (t : option TransactionType) : field :=
  from_option (fun t => Text (type_name t)) Empty t.

(** A number under [float_format='%.2f']: the format is applied to floats,
    NaN being written as the empty [na_rep]; an integer is written as it
    is. *)
Definition number_field_2f (v : number) : field :=
  match v with
  | Float x => if F64.isnan x then Empty else Text (F64.format_2f x)
  | Int64 n | UInt64 n => Text (pretty n)
  end.

(** A number without [float_format]. *)
Definition number_field (v : number) : field :=
  match v with
  | Float x => if F64.isnan x then Empty else FloatField x
  | Int64 n | UInt64 n => Text (pretty n)
  end.

Definition value_field (v : value) : field :=
  match v with
  | Num x => number_field x
  | Str s => Text s
  end.

(** [df.to_csv(clean_file, index=False, float_format='%.2f')] *)
Definition clean_line (r : NormalizedRow) : list field :=
  [date_field (settlement_date r); text_field (symbol r);
   text_field (stock_name r); number_field_2f (quantity r);
   number_field_2f (price r); number_field_2f (total_amount r);
   type_field (transaction_type r)].

Definition to_csv_clean (f : Frame) : csv :=
  mkCsv ["Settlement Date"; "Symbol"; "Stock Name"; "Quantity"; "Price";
         "Total Amount"; "Transaction Type"]
        ((fun r => clean_line r.2) <$> f).

(** [output_df.to_csv(results_file, index=False)] *)
Definition display_line (r : OutputRow) : list field :=
  [date_field (out_date r); text_field (out_symbol r);
   text_field (out_stock_name r); type_field (out_type r);
   number_field (out_quantity r); value_field (out_price r);
   value_field (out_total r)].

Definition to_csv_display (f : list (nat * OutputRow)) : csv :=
  mkCsv ["Settlement Date"; "Symbol"; "Stock Name"; "Transaction Type";
         "Quantity"; "Price"; "Total Amount"]
        ((fun r => display_line r.2) <$> f).

(** [df[[...]]] with the seven names of lines 65-73: a new frame object that
    holds a copy of those columns. *)
Definition select_row (r : NormalizedRow) : OutputRow :=
  mkOut (settlement_date r) (symbol r) (stock_name r) (transaction_type r)
        (quantity r) (Num (price r)) (Num (total_amount r)).

Definition getitem_columns (df : nat) : M nat :=
  let! f := load_cleaned df in
  alloc (Display ((fun r => (r.1, select_row r.2)) <$> f)).

(** The lambda of lines 76 and 77: [f"${x:.2f}"]; the format [.2f] takes an
    integer for the float nearest to it. *)
Definition currency (x : value) : result value :=
  match x with
  | Num x => Ok (Str ("$" +:+ F64.format_2f (Number.to_float x)))
  | Str _ => Raise (ValueError "Unknown format code 'f' for object of type 'str'")
  end.

(** [Series.apply(func)] *)
Fixpoint apply (func : value -> result value) (col : list value)
  : result (list value) :=
  match col with
  | [] => Ok []
  | x :: col' =>
      let* y := func x in
      let* ys := apply func col' in
      Ok (y :: ys)
  end.

Definition with_price (v : value) (r : OutputRow) : OutputRow :=
  mkOut (out_date r) (out_symbol r) (out_stock_name r) (out_type r)
        (out_quantity r) v (out_total r).

Definition with_total (v : value) (r : OutputRow) : OutputRow :=
  mkOut (out_date r) (out_symbol r) (out_stock_name r) (out_type r)
        (out_quantity r) (out_price r) v.

(** [output_df[name] = col]: the object that [output_df] refers to is
    changed in place. *)
Definition setitem (upd : value -> OutputRow -> OutputRow)
    (output_df : nat) (col : list value) : M unit :=
  let! f := load_display output_df in
  store output_df (Display (zip_with (fun r v => (r.1, upd v r.2)) f col)).

Definition save_transactions_summary (df : nat) (input_filename : string)
  : M (string * string) :=
  let base_filename := Py.stem input_filename in
  let clean_file := "orders/clean/clean_" +:+ base_filename +:+ ".csv" in
  let! f := load_cleaned df in
  write_file clean_file (to_csv_clean f) >>
  print (CleanedSavedTo clean_file) >>
  let! output_df := getitem_columns df in
  let! o := load_display output_df in
  let! prices := lift (apply currency ((fun r => out_price r.2) <$> o)) in
  setitem with_price output_df prices >>
  let! o := load_display output_df in
  let! totals := lift (apply currency ((fun r => out_total r.2) <$> o)) in
  setitem with_total output_df totals >>
  let results_file := "orders/results/summary_" +:+ base_filename +:+ ".csv" in
  let! o := load_display output_df in
  write_file results_file (to_csv_display o) >>
  print (SummarySavedTo results_file) >>
  print (MostRecent (firstn 5 o)) >>
  ret (clean_file, results_file).

(** ** [process_raw_files] *)

(** [Series.unique()]: the distinct values in order of first appearance. *)
Fixpoint unique {A} `{EqDecision A} (l : list A) : list A :=
  match l with
  | [] => []
  | x :: l' => x :: filter (fun y => y ≠ x) (unique l')
  end.

(** [Series.value_counts()]: the values that are not null with their number
    of occurrences, sorted by that number, largest first, with the sort of
    [sort_values]. *)
Definition value_counts (col : list (option TransactionType))
  : list (TransactionType * nat) :=
  let vals := omap id col in
  let counts := (fun t => (t, length (filter (fun y => y = t) vals))) <$> unique vals in
  take counts (nargsort_desc ((fun c => Some (Z.of_nat c.2)) <$> counts)).

Fixpoint print_type_counts (type_counts : list (TransactionType * nat)) : M unit :=
  match type_counts with
  | [] => ret tt
  | (type_name, count) :: rest =>
      print (TypeCount type_name count) >> print_type_counts rest
  end.

(** The body of the loop of lines 104-130 for one file. *)
Definition process_file (name : string) (processed_files : list processed)
  : M (list processed) :=
  let file_path := "orders/raw/" +:+ name in
  try_except
    (print (Processing file_path) >>
     let! df := clean_fidelity_csv file_path in
     let! '(clean_file, results_file) := save_transactions_summary df name in
     let! f := load_cleaned df in
     print (TotalTransactions (length f)) >>
     print (UniqueStocks (length (unique ((fun r => symbol r.2) <$> f)))) >>
     print_type_counts (value_counts ((fun r => transaction_type r.2) <$> f)) >>
     ret (processed_files ++
          [mkProcessed file_path clean_file results_file (length f)]))
    (fun e =>
     print (ErrorProcessing file_path e) >>
     ret processed_files).

Fixpoint for_each_file (csv_files : list string) (processed_files : list processed)
  : M (list processed) :=
  match csv_files with
  | [] => ret processed_files
  | name :: rest =>
      let! processed_files := process_file name processed_files in
      for_each_file rest processed_files
  end.

Definition process_raw_files : M (list processed) := fun w =>
  match raw_dir w with
  | None =>
      raise (ValueError "'orders/raw' directory not found. Please create it and add your CSV files.") w
  | Some [] =>
      raise (ValueError "No CSV files found in 'orders/raw' directory.") w
  | Some csv_files => for_each_file csv_files [] w
  end.

End Pipeline.

(** ** An instance of the sort

    Insertion sort on positions, which is numpy's sort of short arrays.
    [before] decides whether the position being inserted goes in front of
    one already placed; with [Z.leb] equal keys stay in input order. *)

Module InsertionSort.

Definition key (keys : list Z) (i : nat) : Z := default 0%Z (keys !! i).

Fixpoint insert_pos (before : Z -> Z -> bool) (keys : list Z) (i : nat)
    (placed : list nat) : list nat :=
  match placed with
  | [] => [i]
  | j :: rest =>
      if before (key keys i) (key keys j) then i :: j :: rest
      else j :: insert_pos before keys i rest
  end.

Definition sort (before : Z -> Z -> bool) (keys : list Z) : list nat :=
  foldr (insert_pos before keys) [] (seq 0 (length keys)).

End InsertionSort.

(** ** Notions used in the statements *)

(** [sub] occurs in [s]. *)
Definition occurs_in (sub s : string) : Prop :=
  exists pre post, s = pre +:+ sub +:+ post.

(** The position [i] of [items] holds a key that is not null. *)
Definition has_key (items : list (option Z)) (i : nat) : Prop :=
  is_Some (mjoin (items !! i)).

(** The display row that the formatter makes of a cleaned row. *)
Definition formatted (r : NormalizedRow) : OutputRow :=
  mkOut (settlement_date r) (symbol r) (stock_name r) (transaction_type r)
        (quantity r)
        (Str ("$" +:+ F64.format_2f (Number.to_float (price r))))
        (Str ("$" +:+ F64.format_2f (Number.to_float (total_amount r)))).

Definition display_frame (f : list (nat * NormalizedRow))
  : list (nat * OutputRow) :=
  (fun r => (r.1, formatted r.2)) <$> f.

(** The three paths of a file of the raw directory. *)
Definition raw_path (name : string) : string := "orders/raw/" +:+ name.

Definition clean_path (name : string) : string :=
  "orders/clean/clean_" +:+ Py.stem name +:+ ".csv".

Definition results_path (name : string) : string :=
  "orders/results/summary_" +:+ Py.stem name +:+ ".csv".

Definition outputs (name : string) (f : list (nat * NormalizedRow))
  : list (string * csv) :=
  [(clean_path name, to_csv_clean f);
   (results_path name, to_csv_display (display_frame f))].

Definition entry (name : string) (f : list (nat * NormalizedRow)) : processed :=
  mkProcessed (raw_path name) (clean_path name) (results_path name) (length f).

Definition missing_columns_error (file_path : string) : exn :=
  ValueError ("Missing required columns in file: " +:+ file_path).

(** The order that [sort_values] leaves between two neighbours: dates
    descend, and no row without a date comes before one with a date. *)
Definition in_order (d1 d2 : option Z) : Prop :=
  match d1, d2 with
  | Some x, Some y => (y <= x)%Z
  | None, Some _ => False
  | _, None => True
  end.

Section Summaries.
Context {pandas : Pandas}.

(** The row of the cleaned frame that the raw row [i] of [df] gives. *)
Record row_from (df : RawFrame) (i : nat) (r : NormalizedRow) : Prop := {
  rf_date : forall col, getitem df "Settlement Date" = Ok (Series col) ->
    exists c, col !! i = Some c /\
              parse_cell col c = Some (settlement_date r);
  rf_quantity : forall col, getitem df "Quantity" = Ok (Series col) ->
    to_numeric_series col !! i = Some (quantity r);
  rf_price : forall col, getitem df "Price" = Ok (Series col) ->
    exists v, to_numeric_series col !! i = Some v /\
              price r = Number.round2 v;
  rf_total :
    total_amount r = Number.round2 (Number.mul (quantity r) (price r));
  rf_type : forall col, getitem df "Action" = Ok (Series col) ->
    exists c, col !! i = Some c /\ transaction_type r = classify c;
  rf_symbol : forall col, getitem df "Symbol" = Ok (Series col) ->
    exists c, col !! i = Some c /\ symbol r = Py.strip <$> c;
  rf_name : forall col, getitem df "Description" = Ok (Series col) ->
    exists c, col !! i = Some c /\ stock_name r = Py.strip <$> c
}.

(** What normalising the file at [file_path] yields, given the raw files. *)
Definition normalized (files : gmap string RawFrame) (file_path : string)
  : result (list (nat * NormalizedRow)) :=
  match files !! file_path with
  | None => Raise (ReadError file_path)
  | Some raw =>
      if has_needed_columns (strip_columns raw)
      then clean_frame (strip_columns raw)
      else Raise (missing_columns_error file_path)
  end.

(** What [clean_fidelity_csv] prints before it raises. *)
Definition diagnostics (files : gmap string RawFrame) (file_path : string)
  : list message :=
  match files !! file_path with
  | None => []
  | Some raw =>
      if has_needed_columns (strip_columns raw) then []
      else [AvailableColumns (columns (strip_columns raw))]
  end.

(** The statistics that [process_raw_files] prints for a cleaned frame. *)
Definition statistics (f : list (nat * NormalizedRow)) : list message :=
  [TotalTransactions (length f);
   UniqueStocks (length (unique ((fun r => symbol r.2) <$> f)))] ++
  ((fun c => TypeCount c.1 c.2) <$>
     value_counts ((fun r => transaction_type r.2) <$> f)).

(** The result, the files and the prints of the loop over [names]. *)
Definition entries (files : gmap string RawFrame) (names : list string)
  : list processed :=
  flat_map (fun name => match normalized files (raw_path name) with
                        | Ok f => [entry name f]
                        | Raise _ => []
                        end) names.

Definition all_outputs (files : gmap string RawFrame) (names : list string)
  : list (string * csv) :=
  flat_map (fun name => match normalized files (raw_path name) with
                        | Ok f => outputs name f
                        | Raise _ => []
                        end) names.

Definition report (files : gmap string RawFrame) (name : string)
  : list message :=
  match normalized files (raw_path name) with
  | Ok f =>
      [Processing (raw_path name);
       CleanedSavedTo (clean_path name);
       SummarySavedTo (results_path name);
       MostRecent (firstn 5 (display_frame f))] ++ statistics f
  | Raise e =>
      [Processing (raw_path name)] ++ diagnostics files (raw_path name) ++
      [ErrorProcessing (raw_path name) e]
  end.

End Summaries.

(** ** The claims as the specification words them, where the code differs *)




(** C7 as stated: the display line of a row differs from its canonical line
    only in the order of the columns and in the currency texts of price and
    total; so its quantity field, the fifth, is the fourth of the canonical
    line. *)
Definition same_quantity_field (canonical display : list field) : Prop :=
  display !! 4 = canonical !! 3.



(** ** A concrete instance: parsers for plain decimals and ISO dates *)

Module Example.

Definition digit (c : ascii) : option Z :=
  let n := nat_of_ascii c in
  if (48 <=? n) && (n <=? 57) then Some (Z.of_nat (n - 48)) else None.

(** Reads the digits at the front of [s]: their value on top of [acc], their
    number, and the rest of [s]. *)
Fixpoint read_digits (s : string) (acc : Z) (k : nat) : Z * nat * string :=
  match s with
  | EmptyString => (acc, k, EmptyString)
  | String c s' =>
      match digit c with
      | Some d => read_digits s' (10 * acc + d)%Z (S k)
      | None => (acc, k, s)
      end
  end.

(** A number parser for [-]digits[.digits]: digits alone are an integer
    literal; a number with a fraction is the quotient of two integers that
    binary64 holds exactly, correctly rounded. *)
Definition parse_decimal (s : string) : option literal :=
  let '(neg, s) := match s with
                   | String "-" s' => (true, s')
                   | _ => (false, s)
                   end in
  let '(n, k, rest) := read_digits s 0 0 in
  if k =? 0 then None else
  match rest with
  | EmptyString => Some (Integer (cond_Zopp neg n) (F64.of_int neg n))
  | String "." frac =>
      let '(n', k', rest') := read_digits frac n 0 in
      match rest' with
      | EmptyString =>
          Some (Decimal (F64.div (F64.of_int neg n')
                                 (F64.of_int false (10 ^ Z.of_nat k'))))
      | _ => None
      end
  | _ => None
  end.

(** Days from 1970-01-01 to the given date of the Gregorian calendar. *)
Definition days_from_civil (y m d : Z) : Z :=
  let y := (if m <=? 2 then y - 1 else y)%Z in
  let era := (y / 400)%Z in
  let yoe := (y - era * 400)%Z in
  let doy := ((153 * (if m <=? 2 then m + 9 else m - 3) + 2) / 5 + d - 1)%Z in
  let doe := (yoe * 365 + yoe / 4 - yoe / 100 + doy)%Z in
  (era * 146097 + doe - 719468)%Z.

(** A date parser for [YYYY-MM-DD], to nanoseconds since the epoch; ["NaT"]
    is the null date.  It does not look at the column. *)
Definition parse_iso_date (col : list (option string)) (s : string)
  : option (option Z) :=
  if String.eqb s "NaT" then Some None else
  let '(y, ky, r1) := read_digits s 0 0 in
  match r1 with
  | String "-" r1' =>
      let '(m, km, r2) := read_digits r1' 0 0 in
      match r2 with
      | String "-" r2' =>
          let '(d, kd, r3) := read_digits r2' 0 0 in
          if (ky =? 4) && (km =? 2) && (kd =? 2) && String.eqb r3 ""
             && (1 <=? m)%Z && (m <=? 12)%Z && (1 <=? d)%Z && (d <=? 31)%Z
          then Some (Some (days_from_civil y m d * 86400000000000)%Z)
          else None
      | _ => None
      end
  | _ => None
  end.

(** A raw file: untrimmed header, an extra column, a row of each kind. *)
Definition trades : RawFrame :=
  mkRaw [" Settlement Date"; "Symbol "; "Description"; "Quantity"; "Price";
         "Action"; "Account"]
    [ [Some "2024-01-02"; Some " AAPL "; Some "APPLE INC"; Some "3";
       Some "19.5"; Some "YOU BOUGHT 3 SHARES"; Some "X1"];
      [Some "2024-01-03"; Some "MSFT"; Some "MICROSOFT"; Some "three";
       Some "19.5"; Some "YOU SOLD 5 SHARES"; Some "X1"];
      [Some "2024-01-03"; Some "IBM"; Some "IBM CORP"; Some "2";
       Some "0.125"; Some "SOLD, THEN BOUGHT"; Some "X1"];
      [Some "2024-01-04"; Some "AAPL"; Some "APPLE INC"; Some "1";
       Some "1.00"; Some "DIVIDEND RECEIVED"; Some "X1"];
      [None; Some "MSFT"; Some "MICROSOFT"; Some "1"; None;
       Some "YOU BOUGHT 1 SHARE"; Some "X1"] ].

(** The header of the missing-column scenario. *)
Definition short_header : RawFrame :=
  mkRaw ["Date"; "Sym"; "Qty"; "Price"; "Action"]
    [ [Some "2024-01-02"; Some "AAPL"; Some "3"; Some "19.5";
       Some "YOU BOUGHT 3 SHARES"] ].

(** A file with a date that does not parse. *)
Definition bad_date : RawFrame :=
  mkRaw ["Settlement Date"; "Symbol"; "Description"; "Quantity"; "Price"; "Action"]
    [ [Some "2024-01-02"; Some "AAPL"; Some "APPLE INC"; Some "3";
       Some "19.5"; Some "YOU BOUGHT 3 SHARES"];
      [Some "yesterday"; Some "AAPL"; Some "APPLE INC"; Some "3";
       Some "19.5"; Some "YOU SOLD 3 SHARES"] ].

(** A column is text unless it is empty of text: [read_csv] reads a column
    whose cells are all missing as numbers. *)
Definition text_dtype (col : list (option string)) : bool :=
  match col with
  | [] => true
  | _ => existsb (fun c : option string => bool_decide (is_Some c)) col
  end.

(** pandas with these parsers and with numpy's sort of short arrays, which
    leaves equal keys in input order. *)
Definition pandas_stable : Pandas :=
  {| parse_date := parse_iso_date; parse_number := parse_decimal;
     object_dtype := text_dtype; argsort := InsertionSort.sort Z.leb;
     empty_frame_error := None |}.

Definition start : world :=
  mkWorld (Some ["short.csv"; "trades.csv"; "bad.csv"])
    {[ "orders/raw/short.csv" := short_header;
       "orders/raw/trades.csv" := trades;
       "orders/raw/bad.csv" := bad_date ]}
    [] [] ∅.

(** The float that a text stands for. *)
Definition num (s : string) : F64.float :=
  match parse_decimal s with
  | Some (Integer _ x) | Some (Decimal x) => x
  | None => F64.nan
  end.

(** A row as [clean_fidelity_csv] builds it from a quantity and a raw
    price of columns of floats. *)
Definition cleaned_row (d : option Z) (sym name : string) (q p : F64.float)
    (t : TransactionType) : NormalizedRow :=
  mkRow d (Some sym) (Some name) (Float q) (Float (F64.round2 p))
        (Float (F64.round2 (F64.mul q (F64.round2 p)))) (Some t).

(** The cleaned frame of [trades]. *)
Definition trades_cleaned : list (nat * NormalizedRow) :=
  [ (1, cleaned_row (Some 1704240000000000000%Z) "MSFT" "MICROSOFT"
          F64.nan (num "19.5") SELL);
    (2, cleaned_row (Some 1704240000000000000%Z) "IBM" "IBM CORP"
          (num "2") (num "0.125") SELL);
    (0, cleaned_row (Some 1704153600000000000%Z) "AAPL" "APPLE INC"
          (num "3") (num "19.5") BUY);
    (4, cleaned_row None "MSFT" "MICROSOFT" (num "1") F64.nan BUY) ].

(** The run of [clean_fidelity_csv] on [trades]. *)
Abbreviation clean_trades p :=
  (clean_fidelity_csv (pandas := p) "orders/raw/trades.csv" start).

(** A file whose quantities and prices are all integers, one product being
    too large for 64 bits. *)
Definition integers : RawFrame :=
  mkRaw ["Settlement Date"; "Symbol"; "Description"; "Quantity"; "Price"; "Action"]
    [ [Some "2024-01-02"; Some "BRK"; Some "BERKSHIRE"; Some "4000000000";
       Some "4000000000"; Some "YOU BOUGHT 4000000000 SHARES"];
      [Some "2024-01-03"; Some "IBM"; Some "IBM CORP"; Some "10";
       Some "3"; Some "YOU SOLD 10 SHARES"] ].

(** A file with a quantity that has three fractional digits. *)
Definition fractions : RawFrame :=
  mkRaw ["Settlement Date"; "Symbol"; "Description"; "Quantity"; "Price"; "Action"]
    [ [Some "2024-01-02"; Some "AAPL"; Some "APPLE INC"; Some "0.125";
       Some "19.5"; Some "YOU BOUGHT 0.125 SHARES"] ].

Definition ledger : world :=
  mkWorld (Some ["integers.csv"; "fractions.csv"])
    {[ "orders/raw/integers.csv" := integers;
       "orders/raw/fractions.csv" := fractions ]}
    [] [] ∅.

End Example.

(** ** [setup_directories] and [main] *)

(** What [main] runs on: the directories that exist, and the world of the
    functions above, whose [raw_dir] is the listing of [orders/raw]. *)
Record machine := mkMachine {
  directories : gset string;
  state : world
}.

(** [(base_dir / directory).mkdir(parents=True, exist_ok=True)]: the directory
    and its parent exist afterwards, and so does every directory that
    existed. *)
Definition mkdir (base_dir directory : string) (dirs : gset string)
  : gset string :=
  {[ base_dir; base_dir +:+ "/" +:+ directory ]} ∪ dirs.

(** The listing of [orders/raw] once [mkdir] has run on it: a directory that
    existed keeps its files, a new one holds none. *)
Definition with_raw_dir (w : world) : world :=
  mkWorld (Some (default [] (raw_dir w))) (disk w) (written w) (stdout w)
          (heap w).

Definition setup_directories (m : machine) : bool * machine :=
  let base_dir := "orders" in
  let dirs := foldl (fun dirs directory => mkdir base_dir directory dirs)
                    (directories m) ["raw"; "clean"; "results"] in
  (true, mkMachine dirs (with_raw_dir (state m))).

(** What [main] itself prints after the run of [process_raw_files]: the
    lines that carry data. *)
Inductive main_line :=
  | InputFile (path : string)
  | CleanData (path : string)
  | SummaryFile (path : string)
  | TransactionsProcessed (n : nat)
  | MainError (e : exn).

(** The four lines of lines 146-149 for one entry of [processed_files]. *)
Definition summary_lines (file_info : processed) : list main_line :=
  [InputFile (p_input file_info); CleanData (p_clean file_info);
   SummaryFile (p_results file_info);
   TransactionsProcessed (p_transactions file_info)].

Section Main.
Context {pandas : Pandas}.

(** [main]: every exception of the run ends in the error report; [main]
    itself returns nothing and raises nothing. *)
Definition main (m : machine) : list main_line * machine :=
  let '(_, m) := setup_directories m in
  match process_raw_files (state m) with
  | (Ok processed_files, w) =>
      (flat_map summary_lines processed_files, mkMachine (directories m) w)
  | (Raise e, w) => ([MainError e], mkMachine (directories m) w)
  end.

End Main.

(** ** Notions used in the further properties *)

(** [s] is made of characters of [chars]. *)
Inductive made_of (chars : list string) : string -> Prop :=
  | made_of_nil : made_of chars EmptyString
  | made_of_cons c s :
      c ∈ chars -> made_of chars s -> made_of chars (c +:+ s).

(** [s] is made of whitespace characters. *)
Definition all_space (s : string) : Prop := made_of Py.whitespace s.

(** [s] has no whitespace character at its front and none at its end. *)
Definition trimmed (s : string) : Prop :=
  (forall c rest, c ∈ Py.whitespace -> s <> c +:+ rest) /\
  (forall c rest, c ∈ Py.whitespace -> s <> rest +:+ c).

(** [t] is [s] without the whitespace around it. *)
Definition strip_of (s t : string) : Prop :=
  exists pre post,
    s = pre +:+ t +:+ post /\ all_space pre /\ all_space post /\ trimmed t.

(** The same on cells: a missing value stays missing. *)
Definition stripped_cell (c t : option string) : Prop :=
  match c, t with
  | Some s, Some t => strip_of s t
  | None, None => True
  | _, _ => False
  end.

(** Every row of the raw frame has one cell per column. *)
Definition rectangular (df : RawFrame) : Prop :=
  Forall (fun r => length r = length (columns df)) (rows df).

(** The raw frame with one more column at its right. *)
Definition add_column (df : RawFrame) (name : string)
    (cells : list (option string)) : RawFrame :=
  mkRaw (columns df ++ [name])
        (zip_with (fun r c => r ++ [c]) (rows df) cells).

(** The world with another file set at [file_path]. *)
Definition with_file (w : world) (file_path : string) (df : RawFrame) : world :=
  mkWorld (raw_dir w) (<[file_path := df]> (disk w)) (written w) (stdout w)
          (heap w).

(** The text of the action cell mentions a sale or a purchase. *)
Definition mentions_trade (x : option string) : bool :=
  Py.str_in "SOLD" (str x) || Py.str_in "BOUGHT" (str x).

Definition is_ok {A} (r : result A) : bool :=
  match r with
  | Ok _ => true
  | Raise _ => false
  end.

(** A file name with the extension [.csv] and something in front of it. *)
Definition csv_name (name : string) : Prop :=
  exists base, base <> EmptyString /\ name = base +:+ ".csv".

(** The count of a line [type: count] of the statistics. *)
Definition type_count (l : message) : option nat :=
  match l with
  | TypeCount _ n => Some n
  | _ => None
  end.

(** The path of a line [Processing path...]. *)
Definition processing_path (l : message) : option string :=
  match l with
  | Processing path => Some path
  | _ => None
  end.

(** ** Further instances *)

Module Cases.

(** A file that holds the header and no row. *)
Definition header_only : RawFrame :=
  mkRaw ["Settlement Date"; "Symbol"; "Description"; "Quantity"; "Price";
         "Action"] [].

(** The raw directory with that file alone. *)
Definition quiet : world :=
  mkWorld (Some ["empty.csv"]) {[ "orders/raw/empty.csv" := header_only ]}
          [] [] ∅.

(** A first run on a machine without directories, and a machine whose raw
    directory holds the files of the example. *)
Definition bare : machine := mkMachine ∅ (mkWorld None ∅ [] [] ∅).

Definition loaded : machine :=
  mkMachine {[ "orders"; "orders/raw" ]} Example.start.

(** A file with two columns named Quantity once its header is trimmed. *)
Definition twice : RawFrame :=
  mkRaw ["Settlement Date"; "Symbol"; "Description"; "Quantity"; "Quantity ";
         "Price"; "Action"]
    [ [Some "2024-01-02"; Some "AAPL"; Some "APPLE INC"; Some "3"; Some "3";
       Some "19.5"; Some "YOU BOUGHT 3 SHARES"] ].

Definition doubled : world :=
  mkWorld (Some ["twice.csv"]) {[ "orders/raw/twice.csv" := twice ]} [] [] ∅.

End Cases.

(** ** Facts on Python strings *)

Lemma append_cons c s t : String c s +:+ t = String c (s +:+ t).
Proof. reflexivity. Qed.

Lemma prefix_spec sub s :
  String.prefix sub s = true <-> exists post, s = sub +:+ post.
Proof.
  revert s. induction sub as [|a sub IH]; intros s; simpl.
  - split; [intros _; by exists s | by destruct s].
  - destruct s as [|b s]; simpl.
    + split; [done | intros [post H]; discriminate].
    + setoid_rewrite append_cons. destruct (ascii_dec a b) as [->|Hne].
      * rewrite IH. split; intros [post H]; exists post; congruence.
      * split; [done | intros [post H]; congruence].
Qed.

Lemma str_in_nil sub : Py.str_in sub EmptyString = String.prefix sub EmptyString.
Proof. simpl. apply orb_false_r. Qed.

Lemma str_in_cons sub c s :
  Py.str_in sub (String c s) = String.prefix sub (String c s) || Py.str_in sub s.
Proof. reflexivity. Qed.

Lemma str_in_spec sub s : Py.str_in sub s = true <-> occurs_in sub s.
Proof.
  unfold occurs_in. induction s as [|c s IH].
  - rewrite str_in_nil, prefix_spec. split.
    + intros [post H]. by exists EmptyString, post.
    + intros ([|? pre] & post & H); [by exists post | discriminate].
  - rewrite str_in_cons, orb_true_iff, prefix_spec, IH. split.
    + intros [[post H] | (pre & post & H)].
      * by exists EmptyString, post.
      * exists (String c pre), post. rewrite append_cons. by rewrite H.
    + intros ([|c' pre] & post & H).
      * left. by exists post.
      * right. exists pre, post. rewrite append_cons in H. congruence.
Qed.

Lemma str_in_false sub s : Py.str_in sub s = false <-> ~ occurs_in sub s.
Proof. rewrite <- str_in_spec. by destruct (Py.str_in sub s). Qed.

Lemma classify_spec (x : option string) :
  (occurs_in "SOLD" (str x) -> classify x = Some SELL) /\
  (~ occurs_in "SOLD" (str x) -> occurs_in "BOUGHT" (str x) ->
   classify x = Some BUY) /\
  (~ occurs_in "SOLD" (str x) -> ~ occurs_in "BOUGHT" (str x) ->
   classify x = None).
Proof.
  unfold classify. repeat split.
  - intros H%str_in_spec. by rewrite H.
  - intros H1%str_in_false H2%str_in_spec. by rewrite H1, H2.
  - intros H1%str_in_false H2%str_in_false. by rewrite H1, H2.
Qed.

Section Proofs.
Context {pandas : Pandas} {laws : SortLaws pandas}.

(** ** Facts on [take] and on the sort *)

Lemma take_in_range {A} (f : list A) (d : A) (indexer : list nat) :
  Forall (fun k => k < length f) indexer ->
  take f indexer = (fun k => default d (f !! k)) <$> indexer.
Proof.
  unfold take. induction 1 as [|k l Hk _ IH]; [done|].
  simpl. destruct (lookup_lt_is_Some_2 f k Hk) as [x ->]. simpl. f_equal. exact IH.
Qed.

Lemma perm_seq_in_range (l : list nat) n :
  l ≡ₚ seq 0 n -> Forall (fun k => k < n) l.
Proof.
  intros Hp. apply Forall_forall. intros k Hk.
  rewrite Hp in Hk. apply elem_of_seq in Hk. lia.
Qed.

Lemma take_seq_prefix {A} (f g : list A) :
  take (f ++ g) (seq 0 (length f)) = f.
Proof.
  unfold take. revert g. induction f as [|x f IH] using rev_ind; intros g; [done|].
  rewrite length_app. simpl. rewrite Nat.add_1_r, seq_S. simpl.
  rewrite omap_app. simpl. rewrite <- app_assoc. rewrite IH.
  rewrite lookup_app_r, Nat.sub_diag by lia. done.
Qed.

Lemma take_seq {A} (f : list A) : take f (seq 0 (length f)) = f.
Proof. rewrite <- (app_nil_r f) at 1. apply take_seq_prefix. Qed.

Lemma take_perm {A} (f : list A) (l1 l2 : list nat) :
  l1 ≡ₚ l2 -> take f l1 ≡ₚ take f l2.
Proof. intros H. unfold take. by rewrite H. Qed.

Lemma take_app {A} (f : list A) (l1 l2 : list nat) :
  take f (l1 ++ l2) = take f l1 ++ take f l2.
Proof. apply omap_app. Qed.

Lemma take_cons {A} (f : list A) k (l : list nat) :
  take f (k :: l) = option_list (f !! k) ++ take f l.
Proof. unfold take. simpl. by destruct (f !! k). Qed.

Lemma take_reverse {A} (f : list A) (l : list nat) :
  take f (reverse l) = reverse (take f l).
Proof.
  induction l as [|k l IH]; [done|].
  rewrite reverse_cons, take_app, IH, !take_cons. simpl.
  rewrite reverse_app, app_nil_r. by destruct (f !! k).
Qed.

Lemma take_fmap {A B} (g : A -> B) (f : list A) (l : list nat) :
  take (g <$> f) l = g <$> take f l.
Proof.
  induction l as [|k l IH]; [done|].
  rewrite !take_cons, fmap_app, IH, list_lookup_fmap. by destruct (f !! k).
Qed.

Lemma take_lookup {A} (f : list A) (idx : list nat) k :
  Forall (fun k => k < length f) idx ->
  take f idx !! k = idx !! k ≫= (f !!.).
Proof.
  intros Hr. revert k. induction Hr as [|i idx Hi _ IH]; intros k; [done|].
  rewrite take_cons. destruct (lookup_lt_is_Some_2 f i Hi) as [x Hx].
  rewrite Hx. destruct k as [|k]; simpl; [by rewrite Hx | apply IH].
Qed.

Lemma take_take {A} (f : list A) (idx l : list nat) :
  Forall (fun k => k < length f) idx ->
  take f (take idx l) = take (take f idx) l.
Proof.
  intros Hr. induction l as [|k l IH]; [done|].
  rewrite !take_cons, take_app, IH. f_equal.
  rewrite take_lookup by done.
  destruct (idx !! k) as [i|]; [|done].
  change (option_list (Some i)) with [i]. rewrite take_cons. apply app_nil_r.
Qed.

(** ** Facts on [nargsort_desc] *)

Lemma take_keyed_from (pre items : list (option Z)) :
  take (pre ++ items)
       (filter (has_key (pre ++ items)) (seq (length pre) (length items)))
  = Some <$> omap id items.
Proof.
  revert pre. induction items as [|x items IH]; intros pre; [done|].
  assert (pre ++ x :: items = (pre ++ [x]) ++ items) as E
    by by rewrite <- app_assoc.
  specialize (IH (pre ++ [x])). rewrite length_app, Nat.add_1_r, <- E in IH.
  simpl. rewrite filter_cons.
  assert ((pre ++ x :: items) !! length pre = Some x) as Hx
    by by rewrite lookup_app_r, Nat.sub_diag.
  destruct x as [z|]; simpl.
  - rewrite decide_True by (unfold has_key; rewrite Hx; simpl; eauto).
    rewrite take_cons, Hx. simpl. by rewrite IH.
  - rewrite decide_False by (unfold has_key; rewrite Hx; by intros []). done.
Qed.

Lemma take_keyed (items : list (option Z)) :
  take items (filter (has_key items) (seq 0 (length items)))
  = Some <$> omap id items.
Proof. apply (take_keyed_from []). Qed.

Lemma take_unkeyed_from (pre items : list (option Z)) :
  Forall (fun d => d = None)
    (take (pre ++ items)
       (filter (fun i => ~ has_key (pre ++ items) i)
               (seq (length pre) (length items)))).
Proof.
  revert pre. induction items as [|x items IH]; intros pre; [constructor|].
  assert (pre ++ x :: items = (pre ++ [x]) ++ items) as E
    by by rewrite <- app_assoc.
  specialize (IH (pre ++ [x])). rewrite length_app, Nat.add_1_r, <- E in IH.
  simpl. rewrite filter_cons.
  assert ((pre ++ x :: items) !! length pre = Some x) as Hx
    by by rewrite lookup_app_r, Nat.sub_diag.
  destruct x as [z|]; simpl.
  - rewrite decide_False
      by (unfold has_key; rewrite Hx; intros Hn; apply Hn; simpl; eauto).
    done.
  - rewrite decide_True by (unfold has_key; rewrite Hx; by intros []).
    rewrite take_cons, Hx. simpl. by constructor.
Qed.

Lemma filter_seq_in_range (P : nat -> Prop) `{forall i, Decision (P i)} n :
  Forall (fun k => k < n) (filter P (seq 0 n)).
Proof.
  apply Forall_forall. intros k [_ Hk%elem_of_seq]%list_elem_of_filter. lia.
Qed.

Lemma length_keyed (items : list (option Z)) :
  length (filter (has_key items) (seq 0 (length items)))
  = length (omap id items).
Proof.
  rewrite <- (length_fmap Some (omap id items)), <- take_keyed.
  rewrite (take_in_range _ None) by apply filter_seq_in_range.
  by rewrite length_fmap.
Qed.

Lemma nargsort_desc_perm (items : list (option Z)) :
  nargsort_desc items ≡ₚ seq 0 (length items).
Proof.
  unfold nargsort_desc.
  rewrite reverse_Permutation.
  rewrite (take_perm _ _ _ (argsort_perm _)).
  rewrite length_reverse, <- length_keyed, <- (length_reverse (filter _ _)).
  rewrite take_seq, reverse_Permutation.
  apply (filter_app_complement (has_key items)).
Qed.

(** The keys along the sorted positions: the keys that are not null, in
    descending order, and then the null ones. *)
Lemma nargsort_desc_keys (items : list (option Z)) :
  exists dated undated,
    take items (nargsort_desc items) = (Some <$> dated) ++ undated /\
    Sorted (flip Z.le) dated /\
    Forall (fun d => d = None) undated.
Proof.
  set (keys := reverse (omap id items)).
  exists (reverse (take keys (argsort keys))),
         (take items (filter (fun i => ~ has_key items i) (seq 0 (length items)))).
  split; [|split].
  - unfold nargsort_desc. fold keys. rewrite take_app. f_equal.
    rewrite take_reverse, fmap_reverse. f_equal.
    rewrite take_take.
    + rewrite take_reverse. fold (has_key items). rewrite take_keyed.
      rewrite <- fmap_reverse. apply take_fmap.
    + apply Forall_reverse, filter_seq_in_range.
  - apply Sorted_reverse, argsort_sorted.
  - apply (take_unkeyed_from []).
Qed.

(** ** The order of equal keys under a stable sort *)





(** ** Facts on the raw frame *)

Lemma rbind_Ok {A B} (m : result A) (k : A -> result B) y :
  rbind m k = Ok y <-> exists x, m = Ok x /\ k x = Ok y.
Proof.
  destruct m as [x|e]; simpl; split.
  - eauto.
  - by intros (? & [= <-] & ?).
  - done.
  - by intros (? & ? & ?).
Qed.

Lemma get_loc_nil name cols : get_loc name cols = [] <-> name ∉ cols.
Proof.
  induction cols as [|c cols IH]; simpl.
  - split; [intros _; apply not_elem_of_nil | done].
  - rewrite not_elem_of_cons, <- IH. destruct (String.eqb_spec c name) as [->|Hne].
    + split; [done | by intros [? _]].
    + simpl. split.
      * intros H%fmap_nil_inv. split; [congruence | done].
      * intros [_ ->]. done.
Qed.

Lemma get_loc_NoDup name cols :
  NoDup cols -> name ∈ cols -> exists j, get_loc name cols = [j].
Proof.
  induction 1 as [|c cols Hc Hcols IH]; [by intros ?%elem_of_nil|].
  simpl. destruct (String.eqb_spec c name) as [->|Hne].
  - intros _. exists 0. by rewrite (proj2 (get_loc_nil name cols) Hc).
  - intros [?|Hin]%elem_of_cons; [congruence|].
    destruct (IH Hin) as [j ->]. by exists (S j).
Qed.

Lemma getitem_needed df name :
  has_needed_columns df = true -> name ∈ needed_columns ->
  exists sel, getitem df name = Ok sel.
Proof.
  unfold has_needed_columns. rewrite forallb_forall. intros Hall Hin.
  specialize (Hall name). rewrite <- list_elem_of_In in Hall.
  apply Hall, bool_decide_eq_true in Hin.
  unfold getitem. destruct (get_loc name (columns df)) as [|j [|j' js]] eqn:E;
    [|eauto..].
  by apply get_loc_nil in E.
Qed.

(** A name that the header has once selects a column. *)
Lemma getitem_NoDup df name :
  NoDup (columns df) -> name ∈ columns df ->
  exists col, getitem df name = Ok (Series col).
Proof.
  intros Hnd Hin. unfold getitem.
  destruct (get_loc_NoDup _ _ Hnd Hin) as [j ->]. eauto.
Qed.

Ltac needed := unfold needed_columns; rewrite !elem_of_cons; auto 10.

Lemma getitem_length df name col :
  getitem df name = Ok (Series col) -> length col = length (rows df).
Proof.
  unfold getitem. destruct (get_loc _ _) as [|j [|j' js]]; [done| |done].
  intros [= <-]. apply length_fmap.
Qed.

Lemma has_needed_columns_false df :
  has_needed_columns df = false <->
  exists col, col ∈ needed_columns /\ col ∉ columns df.
Proof.
  unfold has_needed_columns. split.
  - intros H. apply not_true_iff_false in H.
    rewrite forallb_forall in H.
    destruct (decide (Forall (fun col => col ∈ columns df) needed_columns))
      as [Hall|Hn].
    + exfalso. apply H. intros c Hc%list_elem_of_In.
      rewrite Forall_forall in Hall. apply bool_decide_eq_true, Hall, Hc.
    + apply not_Forall_Exists in Hn; [|apply _].
      apply Exists_exists in Hn. destruct Hn as (c & ? & ?). eauto.
  - intros (c & Hc & Hn). apply not_true_iff_false. rewrite forallb_forall.
    intros Hall. apply Hn. specialize (Hall c).
    rewrite <- list_elem_of_In in Hall. exact (bool_decide_eq_true_1 _ (Hall Hc)).
Qed.

Lemma to_datetime_Ok sel dates :
  to_datetime sel = Ok dates ->
  exists col, sel = Series col /\ mapM (parse_cell col) col = Some dates.
Proof.
  destruct sel as [col|cols]; simpl; [|done].
  destruct (mapM _ _) as [ds|] eqn:E; [|done]. intros [= <-]. eauto.
Qed.


Lemma str_strip_Ok sel out :
  str_strip sel = Ok out ->
  exists col, sel = Series col /\ object_dtype col = true /\
    out = (fun c : option string => Py.strip <$> c) <$> col.
Proof.
  destruct sel as [col|cols]; unfold str_strip; [|done].
  destruct (object_dtype col) eqn:E; [|done]. intros [= <-]. eauto.
Qed.

Lemma to_numeric_Ok sel out :
  to_numeric sel = Ok out ->
  exists col, sel = Series col /\ out = to_numeric_series col.
Proof. destruct sel as [col|cols]; simpl; [|done]. intros [= <-]. eauto. Qed.

Lemma apply_classify_Ok df sel types :
  apply_classify df sel = Ok types ->
  (exists col, sel = Series col /\ types = classify <$> col) \/ rows df = [].
Proof.
  destruct sel as [col|cols]; simpl.
  - intros [= <-]. eauto.
  - destruct (rows df); [auto | done].
Qed.

Lemma length_to_numeric_series col :
  length (to_numeric_series col) = length col.
Proof.
  unfold to_numeric_series.
  destruct (mapM integer col) as [ints|] eqn:E; [|by rewrite length_fmap].
  apply length_mapM in E.
  destruct (forallb in_int64 ints); [by rewrite length_fmap|].
  destruct (forallb in_uint64 ints); by rewrite length_fmap.
Qed.

(** The columns that a successful [cleaned_columns] has read: five columns,
    and the Action column unless the frame has no rows. *)
Lemma cleaned_columns_series df cf :
  cleaned_columns df = Ok cf ->
  exists dates symbols names quantities prices,
    getitem df "Settlement Date" = Ok (Series dates) /\
    getitem df "Symbol" = Ok (Series symbols) /\
    getitem df "Description" = Ok (Series names) /\
    getitem df "Quantity" = Ok (Series quantities) /\
    getitem df "Price" = Ok (Series prices) /\
    ((exists acts, getitem df "Action" = Ok (Series acts)) \/ rows df = []).
Proof.
  unfold cleaned_columns.
  intros (c_date & Hdate & (dates & (cd & -> & _)%to_datetime_Ok &
    (c_sym & Hsym & (symbols & (cs & -> & _)%str_strip_Ok &
    (c_descr & Hdescr & (names & (cn & -> & _)%str_strip_Ok &
    (c_qty & Hqty & (qs & (cq & -> & _)%to_numeric_Ok &
    (c_price & Hprice & (ps & (cp & -> & _)%to_numeric_Ok &
    (c_act & Hact & (types & Htypes%apply_classify_Ok & _)%rbind_Ok
    )%rbind_Ok)%rbind_Ok)%rbind_Ok)%rbind_Ok)%rbind_Ok)%rbind_Ok)%rbind_Ok
    )%rbind_Ok)%rbind_Ok)%rbind_Ok)%rbind_Ok.
  exists cd, cs, cn, cq, cp. split_and!; [done..|].
  destruct Htypes as [(ca & -> & _)|?]; eauto.
Qed.

Lemma cleaned_columns_inv df cf :
  cleaned_columns df = Ok cf ->
  length cf = length (rows df) /\
  forall i lr, cf !! i = Some lr -> lr.1 = i /\ row_from df i lr.2.
Proof.
  unfold cleaned_columns.
  intros (c_date & Hdate & (dates & (cd & -> & Hdates)%to_datetime_Ok &
    (c_sym & Hsym & (symbols & (cs & -> & _ & ->)%str_strip_Ok &
    (c_descr & Hdescr & (names & (cn & -> & _ & ->)%str_strip_Ok &
    (c_qty & Hqty & (qs & (cq & -> & ->)%to_numeric_Ok &
    (c_price & Hprice & (ps & (cp & -> & ->)%to_numeric_Ok &
    (c_act & Hact & (types & Htypes%apply_classify_Ok & [= <-])%rbind_Ok
    )%rbind_Ok)%rbind_Ok)%rbind_Ok)%rbind_Ok)%rbind_Ok)%rbind_Ok)%rbind_Ok
    )%rbind_Ok)%rbind_Ok)%rbind_Ok)%rbind_Ok.
  pose proof (getitem_length _ _ _ Hdate) as Ld.
  pose proof (getitem_length _ _ _ Hsym) as Ls.
  pose proof (getitem_length _ _ _ Hdescr) as Ln.
  pose proof (getitem_length _ _ _ Hqty) as Lq.
  pose proof (getitem_length _ _ _ Hprice) as Lp.
  pose proof (length_mapM _ _ _ Hdates) as Lt.
  split; [rewrite length_imap; lia|].
  intros i lr [d [Hd ->]]%list_lookup_imap_Some. split; [done|].
  pose proof (lookup_lt_Some _ _ _ Hd) as Hlt.
  destruct (lookup_lt_is_Some_2 (to_numeric_series cq) i) as [vq Hvq];
    [rewrite length_to_numeric_series; lia|].
  destruct (lookup_lt_is_Some_2 (to_numeric_series cp) i) as [vp Hvp];
    [rewrite length_to_numeric_series; lia|].
  destruct (lookup_lt_is_Some_2 cs i) as [xs Hxs]; [lia|].
  destruct (lookup_lt_is_Some_2 cn i) as [xn Hxn]; [lia|].
  split; simpl.
  - intros col Hcol. rewrite Hcol in Hdate. injection Hdate as <-.
    rewrite mapM_Some in Hdates.
    destruct (lookup_lt_is_Some_2 col i) as [xd Hxd]; [lia|].
    destruct (Forall2_lookup_l _ _ _ _ _ Hdates Hxd) as (d' & Hd' & Hp).
    exists xd. split; [done|]. congruence.
  - intros col Hcol. rewrite Hcol in Hqty. injection Hqty as <-.
    by rewrite Hvq.
  - intros col Hcol. rewrite Hcol in Hprice. injection Hprice as <-.
    exists vp. by rewrite list_lookup_fmap, Hvp.
  - by rewrite !list_lookup_fmap, lookup_zip_with, list_lookup_fmap, Hvq, Hvp.
  - intros col Hcol. rewrite Hcol in Hact. injection Hact as <-.
    destruct Htypes as [(ca & [= <-] & ->)|Hrows].
    + pose proof (getitem_length _ _ _ Hcol) as La.
      destruct (lookup_lt_is_Some_2 col i) as [xa Hxa]; [lia|].
      exists xa. by rewrite list_lookup_fmap, Hxa.
    + rewrite Hrows in Ld. simpl in Ld. lia.
  - intros col Hcol. rewrite Hcol in Hsym. injection Hsym as <-.
    exists xs. by rewrite list_lookup_fmap, Hxs.
  - intros col Hcol. rewrite Hcol in Hdescr. injection Hdescr as <-.
    exists xn. by rewrite list_lookup_fmap, Hxn.
Qed.

Lemma cleaned_columns_labels df cf :
  cleaned_columns df = Ok cf -> cf.*1 = seq 0 (length (rows df)).
Proof.
  intros [Hlen Hrow]%cleaned_columns_inv. rewrite <- Hlen.
  apply list_eq. intros i. rewrite list_lookup_fmap.
  destruct (cf !! i) as [lr|] eqn:E; simpl.
  - destruct (Hrow _ _ E) as [-> _]. symmetry. apply lookup_seq.
    split; [done|]. by eapply lookup_lt_Some.
  - symmetry. apply lookup_seq_ge. by apply lookup_ge_None.
Qed.

Lemma sort_values_desc_perm (f : list (nat * NormalizedRow)) :
  sort_values_desc f ≡ₚ f.
Proof.
  unfold sort_values_desc.
  rewrite (take_perm _ _ _ (nargsort_desc_perm _)).
  by rewrite length_fmap, take_seq.
Qed.

Lemma clean_frame_inv df out :
  clean_frame df = Ok out ->
  exists cf, cleaned_columns df = Ok cf /\
             out = sort_values_desc (dropna_type cf).
Proof.
  unfold clean_frame. intros (cf & Hcf & [= <-])%rbind_Ok. eauto.
Qed.

Lemma clean_frame_perm df out :
  clean_frame df = Ok out ->
  exists cf, cleaned_columns df = Ok cf /\ out ≡ₚ dropna_type cf.
Proof.
  intros (cf & Hcf & ->)%clean_frame_inv. exists cf. split; [done|].
  apply sort_values_desc_perm.
Qed.

(** The labels of the cleaned frame name raw rows, each at most once, and the
    row under a label comes from that raw row and carries a type. *)
Lemma clean_frame_rows df out :
  clean_frame df = Ok out ->
  NoDup out.*1 /\
  forall i r, (i, r) ∈ out <->
    i < length (rows df) /\ is_Some (transaction_type r) /\
    exists cf, cleaned_columns df = Ok cf /\ cf !! i = Some (i, r).
Proof.
  intros (cf & Hcf & Hp)%clean_frame_perm.
  pose proof (cleaned_columns_inv _ _ Hcf) as [Hlen Hrow].
  split.
  - rewrite Hp. unfold dropna_type.
    assert ((filter (fun r : nat * NormalizedRow =>
               is_Some (transaction_type r.2)) cf).*1 `sublist_of` cf.*1) as Hs
      by apply fmap_sublist, sublist_filter.
    eapply sublist_NoDup in Hs; [done|].
    rewrite (cleaned_columns_labels _ _ Hcf). apply NoDup_seq.
  - intros i r. rewrite Hp. unfold dropna_type.
    rewrite list_elem_of_filter. simpl. split.
    + intros [Ht [k Hk]%list_elem_of_lookup].
      destruct (Hrow _ _ Hk) as [E _]. simpl in E. subst k.
      split; [|eauto]. rewrite <- Hlen. by eapply lookup_lt_Some.
    + intros (_ & Ht & cf' & Hcf' & Hi). rewrite Hcf in Hcf'.
      injection Hcf' as <-. split; [done|]. by eapply list_elem_of_lookup_2.
Qed.

Lemma cleaned_columns_total df cf i :
  cleaned_columns df = Ok cf -> i < length (rows df) ->
  exists r, cf !! i = Some (i, r).
Proof.
  intros Hcf Hi. pose proof (cleaned_columns_inv _ _ Hcf) as [Hlen Hrow].
  destruct (lookup_lt_is_Some_2 cf i) as [[j r] E]; [lia|].
  destruct (Hrow _ _ E) as [E1 _]. simpl in E1. subst j. eauto.
Qed.

(** ** The runs of the three functions *)

Lemma apply_currency {A} (g : A -> number) (l : list A) :
  apply currency ((fun r => Num (g r)) <$> l)
  = Ok ((fun r => Str ("$" +:+ F64.format_2f (Number.to_float (g r)))) <$> l).
Proof.
  induction l as [|x l IH]; [done|].
  rewrite !fmap_cons. cbn [apply]. rewrite IH. reflexivity.
Qed.

Lemma zip_with_fmap_same {A B C D} (g : B -> C -> D) (a : A -> B) (b : A -> C)
    (l : list A) :
  zip_with g (a <$> l) (b <$> l) = (fun x => g (a x) (b x)) <$> l.
Proof.
  induction l as [|x l IH]; [done|].
  rewrite !fmap_cons. cbn [zip_with]. by rewrite IH.
Qed.

Lemma bind_Ok {A B} (m : M A) (k : A -> M B) w x w' :
  m w = (Ok x, w') -> bind m k w = k x w'.
Proof. unfold bind. by intros ->. Qed.

Ltac world_simpl := cbn [heap written stdout disk raw_dir].

Ltac mstep tac := erewrite bind_Ok by (world_simpl; tac); world_simpl.

Lemma load_cleaned_run l f w :
  heap w !! l = Some (Cleaned f) -> load_cleaned l w = (Ok f, w).
Proof. intros H. unfold load_cleaned, load, bind. by rewrite H. Qed.

Lemma load_display_run l f w :
  heap w !! l = Some (Display f) -> load_display l w = (Ok f, w).
Proof. intros H. unfold load_display, load, bind. by rewrite H. Qed.

Lemma getitem_columns_run df f w :
  heap w !! df = Some (Cleaned f) ->
  getitem_columns df w =
    (Ok (fresh (dom (heap w))),
     mkWorld (raw_dir w) (disk w) (written w) (stdout w)
       (<[fresh (dom (heap w)) := Display ((fun r => (r.1, select_row r.2)) <$> f)]>
          (heap w))).
Proof.
  intros H. unfold getitem_columns.
  by rewrite (bind_Ok _ _ _ _ _ (load_cleaned_run _ _ _ H)).
Qed.

Lemma setitem_run upd l col f w :
  heap w !! l = Some (Display f) ->
  setitem upd l col w =
    (Ok tt,
     mkWorld (raw_dir w) (disk w) (written w) (stdout w)
       (<[l := Display (zip_with (fun r v => (r.1, upd v r.2)) f col)]> (heap w))).
Proof.
  intros H. unfold setitem.
  by rewrite (bind_Ok _ _ _ _ _ (load_display_run _ _ _ H)).
Qed.

Lemma save_transactions_summary_run df name f w :
  heap w !! df = Some (Cleaned f) ->
  save_transactions_summary df name w =
    (Ok (clean_path name, results_path name),
     mkWorld (raw_dir w) (disk w)
       (written w ++ [(clean_path name, to_csv_clean f);
                      (results_path name, to_csv_display (display_frame f))])
       (stdout w ++ [CleanedSavedTo (clean_path name);
                     SummarySavedTo (results_path name);
                     MostRecent (firstn 5 (display_frame f))])
       (<[fresh (dom (heap w)) := Display (display_frame f)]> (heap w))).
Proof.
  intros Hdf. unfold save_transactions_summary.
  fold (clean_path name). fold (results_path name).
  mstep ltac:(by apply load_cleaned_run).
  mstep ltac:(reflexivity).
  mstep ltac:(reflexivity).
  mstep ltac:(by apply getitem_columns_run).
  set (l := fresh (dom (heap w))).
  mstep ltac:(apply load_display_run, lookup_insert_eq).
  rewrite <- list_fmap_compose.
  change ((fun r : nat * OutputRow => out_price r.2) ∘ _)
    with (fun r : nat * NormalizedRow => Num (price r.2)).
  rewrite apply_currency.
  mstep ltac:(reflexivity).
  mstep ltac:(apply setitem_run, lookup_insert_eq).
  rewrite insert_insert_eq.
  rewrite zip_with_fmap_same. cbn [fst snd].
  mstep ltac:(apply load_display_run, lookup_insert_eq).
  rewrite <- !list_fmap_compose.
  change ((fun r : nat * OutputRow => out_total r.2) ∘ _)
    with (fun r : nat * NormalizedRow => Num (total_amount r.2)).
  rewrite apply_currency.
  mstep ltac:(reflexivity).
  mstep ltac:(apply setitem_run, lookup_insert_eq).
  rewrite insert_insert_eq.
  rewrite zip_with_fmap_same. cbn [fst snd].
  mstep ltac:(apply load_display_run, lookup_insert_eq).
  mstep ltac:(reflexivity).
  mstep ltac:(reflexivity).
  mstep ltac:(reflexivity).
  unfold ret. rewrite <- !app_assoc. reflexivity.
Qed.

Lemma print_type_counts_run type_counts w :
  print_type_counts type_counts w =
    (Ok tt, mkWorld (raw_dir w) (disk w) (written w)
              (stdout w ++ ((fun c => TypeCount c.1 c.2) <$> type_counts))
              (heap w)).
Proof.
  revert w. induction type_counts as [|[t n] l IH]; intros w.
  - simpl. unfold ret. rewrite app_nil_r. by destruct w.
  - cbn [print_type_counts]. mstep ltac:(reflexivity).
    rewrite IH. world_simpl. by rewrite <- app_assoc.
Qed.

Lemma clean_fidelity_csv_run file_path w :
  clean_fidelity_csv file_path w =
    match normalized (disk w) file_path with
    | Ok out =>
        (Ok (fresh (dom (heap w))),
         mkWorld (raw_dir w) (disk w) (written w) (stdout w)
           (<[fresh (dom (heap w)) := Cleaned out]> (heap w)))
    | Raise e =>
        (Raise e,
         mkWorld (raw_dir w) (disk w) (written w)
           (stdout w ++ diagnostics (disk w) file_path) (heap w))
    end.
Proof.
  unfold clean_fidelity_csv, normalized, diagnostics, read_csv, bind at 1.
  destruct (disk w !! file_path) as [raw|].
  - destruct (has_needed_columns (strip_columns raw)); cbn [negb].
    + unfold lift, bind. destruct (clean_frame (strip_columns raw)); [done|].
      rewrite app_nil_r. by destruct w.
    + mstep ltac:(reflexivity). done.
  - rewrite app_nil_r. by destruct w.
Qed.

Lemma process_file_run name acc w :
  process_file name acc w =
    match normalized (disk w) (raw_path name) with
    | Ok f =>
        let df := fresh (dom (heap w)) in
        let heap1 := <[df := Cleaned f]> (heap w) in
        (Ok (acc ++ [entry name f]),
         mkWorld (raw_dir w) (disk w)
           (written w ++ outputs name f)
           (stdout w ++
              [Processing (raw_path name);
               CleanedSavedTo (clean_path name);
               SummarySavedTo (results_path name);
               MostRecent (firstn 5 (display_frame f))] ++ statistics f)
           (<[fresh (dom heap1) := Display (display_frame f)]> heap1))
    | Raise e =>
        (Ok acc,
         mkWorld (raw_dir w) (disk w) (written w)
           (stdout w ++
              [Processing (raw_path name)] ++ diagnostics (disk w) (raw_path name) ++
              [ErrorProcessing (raw_path name) e])
           (heap w))
    end.
Proof.
  unfold process_file, try_except. fold (raw_path name).
  mstep ltac:(reflexivity).
  unfold bind at 1. rewrite clean_fidelity_csv_run.
  world_simpl.
  destruct (normalized (disk w) (raw_path name)) as [f|e].
  - mstep ltac:(apply save_transactions_summary_run, lookup_insert_eq).
    assert (fresh (dom (<[fresh (dom (heap w)) := Cleaned f]> (heap w))) ≠
            fresh (dom (heap w))) as Hne.
    { intros E%eq_sym. apply (is_fresh (dom (<[fresh (dom (heap w)) := Cleaned f]> (heap w)))).
      rewrite <- E, dom_insert, elem_of_union, elem_of_singleton. by left. }
    mstep ltac:(apply load_cleaned_run; world_simpl;
                rewrite lookup_insert_ne by done; apply lookup_insert_eq).
    mstep ltac:(reflexivity). mstep ltac:(reflexivity).
    mstep ltac:(apply print_type_counts_run).
    unfold ret, entry, outputs, statistics. cbn zeta.
    rewrite <- !app_assoc. reflexivity.
  - mstep ltac:(reflexivity). unfold ret. rewrite <- !app_assoc. reflexivity.
Qed.

Lemma for_each_file_run names acc w :
  exists w',
    for_each_file names acc w = (Ok (acc ++ entries (disk w) names), w') /\
    raw_dir w' = raw_dir w /\ disk w' = disk w /\
    written w' = written w ++ all_outputs (disk w) names /\
    stdout w' = stdout w ++ flat_map (report (disk w)) names /\
    heap w ⊆ heap w'.
Proof.
  revert acc w. induction names as [|name names IH]; intros acc w.
  - exists w. simpl. unfold ret. by rewrite !app_nil_r.
  - cbn [for_each_file]. unfold bind. rewrite process_file_run.
    unfold entries, all_outputs, report. cbn [flat_map].
    fold (entries (disk w) names). fold (all_outputs (disk w) names).
    destruct (normalized (disk w) (raw_path name)) as [f|e]; cbn zeta.
    + match goal with |- context [for_each_file names ?a ?v] =>
        destruct (IH a v) as (w' & -> & Hr & Hd & Hw & Hs & Hh) end.
      revert Hr Hd Hw Hs Hh. world_simpl. intros Hr Hd Hw Hs Hh.
      exists w'. split_and!.
      * by rewrite <- app_assoc.
      * done.
      * done.
      * rewrite Hw. by rewrite <- app_assoc.
      * rewrite Hs. by rewrite <- !app_assoc.
      * etrans; [|exact Hh].
        etrans; [apply insert_subseteq, not_elem_of_dom, is_fresh|].
        apply insert_subseteq, not_elem_of_dom, is_fresh.
    + match goal with |- context [for_each_file names ?a ?v] =>
        destruct (IH a v) as (w' & -> & Hr & Hd & Hw & Hs & Hh) end.
      revert Hr Hd Hw Hs Hh. world_simpl. intros Hr Hd Hw Hs Hh.
      exists w'. split_and!; try done.
      rewrite Hs. by rewrite <- !app_assoc.
Qed.

(** ** Facts on binary64 numbers *)

Lemma mul_nan_l x : F64.mul F64.nan x = F64.nan.
Proof. reflexivity. Qed.


Lemma isnan_true x : F64.isnan x = true <-> x = F64.nan.
Proof. destruct x; simpl; split; intros; done. Qed.



(** ** The claims on [clean_fidelity_csv] *)

(** A successful call of [clean_fidelity_csv] read a raw frame that has the
    needed columns and returns a new object holding its cleaned frame. *)
Lemma clean_fidelity_csv_Ok file_path w df w' :
  clean_fidelity_csv file_path w = (Ok df, w') ->
  exists raw out,
    disk w !! file_path = Some raw /\
    has_needed_columns (strip_columns raw) = true /\
    clean_frame (strip_columns raw) = Ok out /\
    heap w !! df = None /\
    heap w' !! df = Some (Cleaned out) /\
    written w' = written w /\ stdout w' = stdout w.
Proof.
  rewrite clean_fidelity_csv_run. unfold normalized.
  destruct (disk w !! file_path) as [raw|]; [|done].
  destruct (has_needed_columns (strip_columns raw)) eqn:Hc; [|done].
  destruct (clean_frame (strip_columns raw)) as [out|] eqn:Ho; [|done].
  intros [= <- <-]. exists raw, out. split_and!; try done.
  - apply not_elem_of_dom, is_fresh.
  - apply lookup_insert_eq.
Qed.

(** C1.  Every row of the raw file whose action text contains "SOLD" is in
    the cleaned frame, once, as a SELL; one whose text contains "BOUGHT" and
    not "SOLD" is in it, once, as a BUY; one whose text contains neither is
    not in it.  [acts] is the Action column, [i] the label of a raw row.  (A
    file on which [clean_fidelity_csv] succeeds has one column of that name,
    or has no row at all.) *)
Theorem C1_classification file_path w df w' :
  clean_fidelity_csv file_path w = (Ok df, w') ->
  exists raw acts out,
    disk w !! file_path = Some raw /\
    (getitem (strip_columns raw) "Action" = Ok (Series acts) \/
     rows raw = [] /\ acts = []) /\
    length acts = length (rows raw) /\
    heap w' !! df = Some (Cleaned out) /\
    NoDup out.*1 /\
    (forall i r, (i, r) ∈ out -> is_Some (acts !! i)) /\
    forall i a, acts !! i = Some a ->
      (occurs_in "SOLD" (str a) ->
       exists r, (i, r) ∈ out /\ transaction_type r = Some SELL) /\
      (~ occurs_in "SOLD" (str a) -> occurs_in "BOUGHT" (str a) ->
       exists r, (i, r) ∈ out /\ transaction_type r = Some BUY) /\
      (~ occurs_in "SOLD" (str a) -> ~ occurs_in "BOUGHT" (str a) ->
       i ∉ out.*1).
Proof.
  intros (raw & out & Hraw & Hcols & Hout & _ & Hdf & _)%clean_fidelity_csv_Ok.
  destruct (clean_frame_rows _ _ Hout) as [Hnd Hrows].
  destruct (clean_frame_inv _ _ Hout) as (cf & Hcf & _).
  pose proof (cleaned_columns_inv _ _ Hcf) as [_ Hrow].
  destruct (cleaned_columns_series _ _ Hcf)
    as (_ & _ & _ & _ & _ & _ & _ & _ & _ & _ & [[acts Hacts]|Hnone]).
  - pose proof (getitem_length _ _ _ Hacts) as Hlen.
    exists raw, acts, out.
    split; [done|]. split; [by left|]. split; [done|].
    split; [done|]. split; [done|]. split.
    + intros i r (Hi & _)%Hrows. apply lookup_lt_is_Some. lia.
    + intros i a Ha.
      assert (i < length (rows (strip_columns raw))) as Hi
        by (rewrite <- Hlen; by eapply lookup_lt_Some).
      destruct (cleaned_columns_total _ _ _ Hcf Hi) as [r Hr].
      destruct (Hrow _ _ Hr) as [_ Hfrom]. simpl in Hfrom.
      destruct (rf_type _ _ _ Hfrom _ Hacts) as (a' & Ha' & Hty).
      rewrite Ha in Ha'. injection Ha' as <-.
      destruct (classify_spec a) as (Hsell & Hbuy & Hnone).
      split_and!.
      * intros Hs. exists r. rewrite Hty, (Hsell Hs). split; [|done].
        apply Hrows. rewrite Hty, (Hsell Hs). eauto.
      * intros Hs Hb. exists r. rewrite Hty, (Hbuy Hs Hb). split; [|done].
        apply Hrows. rewrite Hty, (Hbuy Hs Hb). eauto.
      * intros Hs Hb [[i' r'] [E Hin]]%list_elem_of_fmap. simpl in E. subst i'.
        apply Hrows in Hin as (_ & Ht & cf' & Hcf' & Hr').
        rewrite Hcf in Hcf'. injection Hcf' as <-.
        rewrite Hr in Hr'. injection Hr' as <-.
        rewrite Hty, (Hnone Hs Hb) in Ht. by destruct Ht.
  - change (rows (strip_columns raw)) with (rows raw) in *.
    exists raw, [], out.
    split; [done|]. split; [by right|]. split; [by rewrite Hnone|].
    split; [done|]. split; [done|]. split.
    + intros i r (Hi & _)%Hrows. rewrite Hnone in Hi. simpl in Hi. lia.
    + by intros i a ?.
Qed.

Lemma integer_Some (c : option string) n :
  integer c = Some n <-> exists y, c ≫= parse_number = Some (Integer n y).
Proof.
  unfold integer. destruct (c ≫= parse_number) as [[n' y|y]|]; split;
    try done; try (by intros [? ?]).
  - intros [= <-]. eauto.
  - by intros [? [= <- _]].
Qed.

(** A value of the column that [to_numeric] returns, and the cell it comes
    from. *)
Lemma to_numeric_series_lookup col i v :
  to_numeric_series col !! i = Some v ->
  exists c, col !! i = Some c /\
    match v with
    | Float x => x = coerce c
    | Int64 n | UInt64 n => integer c = Some n
    end.
Proof.
  unfold to_numeric_series.
  assert (forall v, ((fun c => Float (coerce c)) <$> col) !! i = Some v ->
            exists c, col !! i = Some c /\
              match v with
              | Float x => x = coerce c
              | Int64 n | UInt64 n => integer c = Some n
              end) as Hfl.
  { intros v'. rewrite list_lookup_fmap. destruct (col !! i); [|done].
    intros [= <-]. eauto. }
  destruct (mapM integer col) as [ints|] eqn:E; [|apply Hfl].
  rewrite mapM_Some in E.
  destruct (forallb in_int64 ints).
  - rewrite list_lookup_fmap. destruct (ints !! i) as [n|] eqn:En; [|done].
    intros [= <-].
    destruct (Forall2_lookup_r _ _ _ _ _ E En) as (c & Hc & Hn). eauto.
  - destruct (forallb in_uint64 ints); [|apply Hfl].
    rewrite list_lookup_fmap. destruct (ints !! i) as [n|] eqn:En; [|done].
    intros [= <-].
    destruct (Forall2_lookup_r _ _ _ _ _ E En) as (c & Hc & Hn). eauto.
Qed.








Lemma dated_then_undated_in_order (dated : list Z) (undated : list (option Z)) :
  Sorted (flip Z.le) dated -> Forall (fun d => d = None) undated ->
  forall p d1 d2,
    ((Some <$> dated) ++ undated) !! p = Some d1 ->
    ((Some <$> dated) ++ undated) !! S p = Some d2 ->
    in_order d1 d2.
Proof.
  intros Hs Hn. induction Hs as [|x dated Hs IH Hhd]; intros p d1 d2.
  - simpl. intros _ H2%list_elem_of_lookup_2.
    rewrite Forall_forall in Hn. rewrite (Hn _ H2). by destruct d1.
  - destruct p as [|p]; [|apply IH]. simpl. intros [= <-].
    destruct Hhd as [|y dated' Hxy]; simpl.
    + intros H2. destruct undated as [|u undated]; [done|].
      injection H2 as <-. by rewrite (Forall_inv Hn).
    + by intros [= <-].
Qed.


(** ** The claims on the output formatter and on the driver *)

Lemma elem_of_unique {A} `{EqDecision A} (l : list A) x :
  x ∈ unique l <-> x ∈ l.
Proof.
  induction l as [|y l IH]; simpl; [done|].
  rewrite !elem_of_cons, list_elem_of_filter, IH.
  destruct (decide (x = y)) as [->|Hne].
  - split; intros _; by left.
  - split.
    + intros [?|[_ ?]]; [done | by right].
    + intros [?|?]; [done | by right].
Qed.

Lemma elem_of_flat_map {A B} (g : A -> list B) (l : list A) y :
  y ∈ flat_map g l <-> exists x, x ∈ l /\ y ∈ g x.
Proof.
  rewrite list_elem_of_In, in_flat_map.
  by setoid_rewrite list_elem_of_In.
Qed.

(** C9.  [save_transactions_summary] leaves the cleaned frame, and every
    other object that existed, as it was: the currency strings go into a new
    object. *)
Theorem C9_formatter_leaves_frame df name f w :
  heap w !! df = Some (Cleaned f) ->
  exists res w' output_df,
    save_transactions_summary df name w = (Ok res, w') /\
    heap w' !! df = Some (Cleaned f) /\
    (forall l o, heap w !! l = Some o -> heap w' !! l = Some o) /\
    output_df <> df /\
    heap w !! output_df = None /\
    heap w' !! output_df = Some (Display (display_frame f)).
Proof.
  intros Hdf. rewrite (save_transactions_summary_run _ _ _ _ Hdf).
  assert (heap w !! fresh (dom (heap w)) = None) as Hfresh
    by apply not_elem_of_dom, is_fresh.
  assert (forall l o, heap w !! l = Some o -> fresh (dom (heap w)) <> l) as Hne
    by (intros l o Hl E; rewrite E in Hfresh; congruence).
  eexists _, _, (fresh (dom (heap w))). split; [done|]. cbn [heap].
  split_and!.
  - rewrite lookup_insert_ne by eauto. done.
  - intros l o Hl. rewrite lookup_insert_ne by eauto. done.
  - eauto.
  - done.
  - apply lookup_insert_eq.
Qed.

(** C10.  The formatter never raises; the display file has a line for every
    row of the frame, and in the line of a row whose price, or total amount,
    is NaN the field of that column is the text "$nan". *)
Theorem C10_nan_rendering df name f w :
  heap w !! df = Some (Cleaned f) ->
  exists w' display,
    save_transactions_summary df name w
      = (Ok (clean_path name, results_path name), w') /\
    (results_path name, display) ∈ written w' /\
    length (lines display) = length f /\
    forall p r, f !! p = Some r ->
      exists ln, lines display !! p = Some ln /\
        (price r.2 = Float F64.nan -> ln !! 5 = Some (Text "$nan")) /\
        (total_amount r.2 = Float F64.nan -> ln !! 6 = Some (Text "$nan")).
Proof.
  intros Hdf. rewrite (save_transactions_summary_run _ _ _ _ Hdf).
  eexists _, _. split; [done|]. cbn [written]. split_and!.
  - rewrite elem_of_app. right. apply elem_of_cons. right.
    apply list_elem_of_singleton. reflexivity.
  - cbn [lines to_csv_display]. unfold display_frame. by rewrite !length_fmap.
  - intros p [i r] Hr. cbn [lines to_csv_display]. unfold display_frame.
    rewrite <- list_fmap_compose, list_lookup_fmap, Hr.
    eexists. split; [reflexivity|]. cbn [snd].
    split; intros H; simpl; by rewrite H.
Qed.

Lemma clean_fidelity_csv_normalized_Ok file_path w df w' f :
  clean_fidelity_csv file_path w = (Ok df, w') ->
  heap w' !! df = Some (Cleaned f) ->
  normalized (disk w) file_path = Ok f.
Proof.
  rewrite clean_fidelity_csv_run.
  destruct (normalized (disk w) file_path) as [out|e]; [|done].
  intros [= <- <-]. cbn [heap]. rewrite lookup_insert_eq. congruence.
Qed.

Lemma clean_fidelity_csv_normalized_Raise file_path w e w' :
  clean_fidelity_csv file_path w = (Raise e, w') ->
  normalized (disk w) file_path = Raise e.
Proof.
  rewrite clean_fidelity_csv_run.
  destruct (normalized (disk w) file_path) as [out|e']; [done|].
  by intros [= <- <-].
Qed.

(** C5.  On a file whose header, once trimmed, lacks a needed column,
    [clean_fidelity_csv] prints the columns it found and raises the error
    that names the file; [process_file] reports that error and writes no
    file. *)
Theorem C5_missing_column name acc w raw :
  disk w !! raw_path name = Some raw ->
  (exists col, col ∈ needed_columns /\ col ∉ (Py.strip <$> columns raw)) ->
  (exists w1,
     clean_fidelity_csv (raw_path name) w
       = (Raise (ValueError ("Missing required columns in file: "
                             +:+ raw_path name)), w1) /\
     stdout w1 = stdout w ++ [AvailableColumns (Py.strip <$> columns raw)] /\
     written w1 = written w /\ heap w1 = heap w) /\
  (exists w2,
     process_file name acc w = (Ok acc, w2) /\
     written w2 = written w /\
     stdout w2 = stdout w ++
       [Processing (raw_path name);
        AvailableColumns (Py.strip <$> columns raw);
        ErrorProcessing (raw_path name)
          (ValueError ("Missing required columns in file: " +:+ raw_path name))]).
Proof.
  intros Hraw Hmiss.
  apply (has_needed_columns_false (strip_columns raw)) in Hmiss.
  split.
  - rewrite clean_fidelity_csv_run. unfold normalized, diagnostics.
    rewrite Hraw, Hmiss. eauto.
  - rewrite process_file_run. unfold normalized, diagnostics.
    rewrite Hraw, Hmiss. eauto.
Qed.

(** C6.  [process_raw_files] over a directory that holds files returns
    without raising; every file on which [clean_fidelity_csv] raises is
    reported with its error, and for every file on which it succeeds both
    output files are written and the file is listed in the result. *)
Theorem C6_per_file_isolation w names :
  raw_dir w = Some names -> names <> [] ->
  exists processed_files w',
    process_raw_files w = (Ok processed_files, w') /\
    (forall name e w1,
       name ∈ names ->
       clean_fidelity_csv (raw_path name) w = (Raise e, w1) ->
       ErrorProcessing (raw_path name) e ∈ stdout w') /\
    (forall name df w1 f,
       name ∈ names ->
       clean_fidelity_csv (raw_path name) w = (Ok df, w1) ->
       heap w1 !! df = Some (Cleaned f) ->
       (clean_path name, to_csv_clean f) ∈ written w' /\
       (results_path name, to_csv_display (display_frame f)) ∈ written w' /\
       mkProcessed (raw_path name) (clean_path name) (results_path name)
                   (length f) ∈ processed_files).
Proof.
  intros Hdir Hne. unfold process_raw_files. rewrite Hdir.
  destruct names as [|n0 names0]; [done|]. set (names := n0 :: names0) in *.
  destruct (for_each_file_run names [] w)
    as (w' & Hrun & _ & _ & Hw & Hs & _).
  eexists _, w'. split; [exact Hrun|]. split.
  - intros name e w1 Hin Hraise%clean_fidelity_csv_normalized_Raise.
    rewrite Hs, elem_of_app. right.
    apply elem_of_flat_map. exists name. split; [done|].
    unfold report. rewrite Hraise. rewrite !elem_of_app. right. right.
    by apply list_elem_of_singleton.
  - intros name df w1 f Hin Hok Hdf.
    pose proof (clean_fidelity_csv_normalized_Ok _ _ _ _ _ Hok Hdf) as Hn.
    assert (forall x, x ∈ outputs name f -> x ∈ written w') as Hout.
    { intros x Hx. rewrite Hw, elem_of_app. right.
      apply elem_of_flat_map. exists name. split; [done|]. by rewrite Hn. }
    split_and!.
    + apply Hout. unfold outputs. apply elem_of_cons. by left.
    + apply Hout. unfold outputs. apply elem_of_cons. right.
      by apply list_elem_of_singleton.
    + rewrite app_nil_l. apply elem_of_flat_map. exists name.
      split; [done|]. rewrite Hn. by apply list_elem_of_singleton.
Qed.

(** ** The statistics *)

Lemma filter_omap_id {A} `{EqDecision A} (col : list (option A)) (t : A) :
  length (filter (fun y => y = t) (omap id col))
  = length (filter (fun c => c = Some t) col).
Proof.
  induction col as [|[x|] col IH]; [done| |].
  - change (omap id (Some x :: col)) with (x :: omap id col).
    rewrite !filter_cons. destruct (decide (x = t)) as [->|Hne].
    + rewrite decide_True by done. simpl. by rewrite IH.
    + rewrite decide_False by congruence. done.
  - change (omap id (None :: col)) with (omap id col).
    rewrite filter_cons, decide_False by done. done.
Qed.

Lemma filter_length_pos {A} (P : A -> Prop) `{forall x, Decision (P x)} (l : list A) :
  0 < length (filter P l) <-> exists x, x ∈ l /\ P x.
Proof.
  split.
  - destruct (filter P l) as [|x k] eqn:E; simpl; [lia|]. intros _.
    assert (x ∈ filter P l) as Hx by (rewrite E; by left).
    apply list_elem_of_filter in Hx as [? ?]. eauto.
  - intros (x & Hx & HP).
    assert (x ∈ filter P l) as Hin by by apply list_elem_of_filter.
    destruct (filter P l); [by apply elem_of_nil in Hin | simpl; lia].
Qed.

Lemma filter_fmap_length {A B} `{EqDecision B} (g : A -> B) (v : B) (l : list A) :
  length (filter (fun x => g x = v) l)
  = length (filter (fun c => c = v) (g <$> l)).
Proof.
  induction l as [|x l IH]; [done|].
  rewrite fmap_cons, !filter_cons.
  destruct (decide (g x = v)); simpl; by rewrite IH.
Qed.

(** [value_counts] lists the types that occur, each with the number of its
    occurrences. *)
Lemma value_counts_spec (col : list (option TransactionType)) t n :
  (t, n) ∈ value_counts col <->
  0 < n /\ n = length (filter (fun c => c = Some t) col).
Proof.
  unfold value_counts.
  set (vals := omap id col).
  set (counts := (fun t => (t, length (filter (fun y => y = t) vals)))
                   <$> unique vals).
  assert (take counts (nargsort_desc ((fun c => Some (Z.of_nat c.2)) <$> counts))
          ≡ₚ counts) as ->.
  { rewrite (take_perm _ _ _ (nargsort_desc_perm _)).
    by rewrite length_fmap, take_seq. }
  unfold counts. rewrite list_elem_of_fmap.
  setoid_rewrite elem_of_unique. unfold vals. split.
  - intros (t' & [= <- ->] & Hin). rewrite filter_omap_id. split; [|done].
    apply filter_length_pos. exists (Some t). split; [|done].
    apply list_elem_of_omap in Hin as ([t''|] & Hin & E); simpl in E; congruence.
  - intros [Hpos ->]. exists t. rewrite filter_omap_id. split; [done|].
    apply filter_length_pos in Hpos as (c & Hc & ->).
    apply list_elem_of_omap. by exists (Some t).
Qed.

Lemma NoDup_unique {A} `{EqDecision A} (l : list A) : NoDup (unique l).
Proof.
  induction l as [|x l IH]; simpl; [constructor|].
  constructor; [|by apply NoDup_filter].
  by intros [H _]%list_elem_of_filter.
Qed.

(** C7, as the code has it.  For a file that [clean_fidelity_csv] normalises
    to the frame [f], [process_file] writes the canonical and the display
    file with one line per row of [f], in the order of [f].  The two lines
    of a row carry the same date, symbol, name and type; the canonical line
    writes a float of quantity, price and total with two decimals and an
    integer as it is; the display line writes the quantity in full and the
    price and the total as currency texts.  The statistics printed are those
    of [f]: its length, the number of its distinct symbols, and for each type
    that occurs the number of its rows. *)
Theorem C7_outputs_agree name acc w df w1 f :
  clean_fidelity_csv (raw_path name) w = (Ok df, w1) ->
  heap w1 !! df = Some (Cleaned f) ->
  let date := fun r : nat * NormalizedRow =>
    from_option DateField Empty (settlement_date r.2) in
  let type := fun r : nat * NormalizedRow =>
    from_option (fun t => Text match t with SELL => "SELL" | BUY => "BUY" end)
                Empty (transaction_type r.2) in
  let two_decimals := fun v =>
    match v with
    | Float x => if F64.isnan x then Empty else Text (F64.format_2f x)
    | Int64 n | UInt64 n => Text (pretty n)
    end in
  let in_full := fun v =>
    match v with
    | Float x => if F64.isnan x then Empty else FloatField x
    | Int64 n | UInt64 n => Text (pretty n)
    end in
  let currency := fun v =>
    Text ("$" +:+ F64.format_2f
                    match v with
                    | Float x => x
                    | Int64 n | UInt64 n => binary_normalize 53 1024 n 0 false
                    end) in
  exists w' canonical display printed stocks,
    process_file name acc w
      = (Ok (acc ++ [mkProcessed (raw_path name) (clean_path name)
                                 (results_path name) (length f)]), w') /\
    written w' = written w ++ [(clean_path name, canonical);
                               (results_path name, display)] /\
    header canonical = ["Settlement Date"; "Symbol"; "Stock Name"; "Quantity";
                        "Price"; "Total Amount"; "Transaction Type"] /\
    header display = ["Settlement Date"; "Symbol"; "Stock Name";
                      "Transaction Type"; "Quantity"; "Price"; "Total Amount"] /\
    lines canonical =
      (fun r => [date r; from_option Text Empty (symbol r.2);
                 from_option Text Empty (stock_name r.2);
                 two_decimals (quantity r.2); two_decimals (price r.2);
                 two_decimals (total_amount r.2); type r]) <$> f /\
    lines display =
      (fun r => [date r; from_option Text Empty (symbol r.2);
                 from_option Text Empty (stock_name r.2); type r;
                 in_full (quantity r.2); currency (price r.2);
                 currency (total_amount r.2)]) <$> f /\
    stdout w' = stdout w ++ printed /\
    (forall n, TotalTransactions n ∈ printed <-> n = length f) /\
    (forall n, UniqueStocks n ∈ printed <-> n = length stocks) /\
    NoDup stocks /\
    (forall s, s ∈ stocks <-> exists i r, (i, r) ∈ f /\ symbol r = s) /\
    (forall t n, TypeCount t n ∈ printed <->
       0 < n /\
       n = length (filter (fun r => transaction_type r.2 = Some t) f)).
Proof.
  intros Hok Hdf date type two_decimals in_full currency.
  pose proof (clean_fidelity_csv_normalized_Ok _ _ _ _ _ Hok Hdf) as Hn.
  rewrite process_file_run, Hn. cbn zeta.
  eexists _, _, _, _, (unique ((fun r => symbol r.2) <$> f)).
  split; [reflexivity|]. cbn [written stdout].
  split; [reflexivity|]. split; [reflexivity|]. split; [reflexivity|].
  split; [reflexivity|].
  split; [unfold display_frame; cbn [lines to_csv_display];
          by rewrite <- list_fmap_compose|].
  split; [reflexivity|].
  unfold statistics.
  assert (forall m, m ∈ (fun c : TransactionType * nat => TypeCount c.1 c.2)
                        <$> value_counts ((fun r => transaction_type r.2) <$> f) ->
                    exists t n, m = TypeCount t n) as Hcounts.
  { intros m ([t n] & -> & _)%list_elem_of_fmap. eauto. }
  cbn [app]. split_and!.
  - intros n. rewrite !elem_of_cons. split.
    + intros [?|[?|[?|[?|[?|[?|(t' & n' & ?)%Hcounts]]]]]]; congruence.
    + intros ->. do 4 right. by left.
  - intros n. rewrite !elem_of_cons. split.
    + intros [?|[?|[?|[?|[?|[?|(t' & n' & ?)%Hcounts]]]]]]; congruence.
    + intros ->. do 5 right. by left.
  - apply NoDup_unique.
  - intros s. rewrite elem_of_unique, list_elem_of_fmap. split.
    + intros ([i r] & -> & Hin). by exists i, r.
    + intros (i & r & Hin & <-). by exists (i, r).
  - intros t n.
    rewrite (filter_fmap_length (fun r : nat * NormalizedRow =>
                                   transaction_type r.2)).
    rewrite <- value_counts_spec.
    rewrite !elem_of_cons, list_elem_of_fmap. split.
    + intros [?|[?|[?|[?|[?|[?|([t' n'] & E & Hin)]]]]]]; try congruence.
      simpl in E. by injection E as -> ->.
    + intros Hin. do 6 right. by exists (t, n).
Qed.

End Proofs.

(** ** The sort of the example meets what numpy documents, and is stable *)

Section InsertionSortFacts.
Variable before : Z -> Z -> bool.
Hypothesis before_le : forall a b, before a b = true -> (a <= b)%Z.
Hypothesis not_before_ge : forall a b, before a b = false -> (b <= a)%Z.

Lemma insert_pos_perm keys i placed :
  InsertionSort.insert_pos before keys i placed ≡ₚ i :: placed.
Proof.
  induction placed as [|j rest IH]; simpl; [done|].
  destruct (before _ _); [done|].
  rewrite IH. apply Permutation_swap.
Qed.

Lemma sort_perm keys : InsertionSort.sort before keys ≡ₚ seq 0 (length keys).
Proof.
  unfold InsertionSort.sort. induction (seq 0 (length keys)) as [|i l IH]; simpl; [done|].
  rewrite insert_pos_perm. by constructor.
Qed.

Lemma insert_pos_sorted keys i placed :
  Sorted Z.le (InsertionSort.key keys <$> placed) ->
  Sorted Z.le (InsertionSort.key keys <$> InsertionSort.insert_pos before keys i placed).
Proof.
  induction placed as [|j rest IH]; simpl; intros Hs.
  - repeat constructor.
  - destruct (before _ _) eqn:Hb.
    + simpl. constructor; [done|]. constructor. by apply before_le.
    + apply not_before_ge in Hb. inversion Hs as [|? ? Hrest Hhd]; subst.
      simpl. constructor; [by apply IH|].
      destruct rest as [|j' rest']; simpl.
      * by constructor.
      * destruct (before _ (InsertionSort.key keys j')); simpl; constructor; [done|].
        by inversion Hhd.
Qed.

Lemma sort_key_sorted keys : Sorted Z.le (InsertionSort.key keys <$> InsertionSort.sort before keys).
Proof.
  unfold InsertionSort.sort. induction (seq 0 (length keys)) as [|i l IH]; simpl.
  - constructor.
  - by apply insert_pos_sorted.
Qed.

Lemma sort_take_sorted keys :
  Sorted Z.le (take keys (InsertionSort.sort before keys)).
Proof.
  rewrite (take_in_range _ 0%Z).
  - apply sort_key_sorted.
  - apply perm_seq_in_range, sort_perm.
Qed.

End InsertionSortFacts.

Lemma stable_laws : SortLaws Example.pandas_stable.
Proof.
  split.
  - apply sort_perm.
  - apply sort_take_sorted; intros a b; lia.
Qed.




(** ** The claims on the example *)

Import Example.

(** C1 on [trades]: one row of each kind. *)
Lemma C1_witness :
  exists raw acts out,
    disk start !! "orders/raw/trades.csv" = Some raw /\
    (getitem (strip_columns raw) "Action" = Ok (Series acts) \/
     rows raw = [] /\ acts = []) /\
    length acts = length (rows raw) /\
    heap (clean_trades pandas_stable).2 !! 0 = Some (Cleaned out) /\
    NoDup out.*1 /\
    (forall i r, (i, r) ∈ out -> is_Some (acts !! i)) /\
    forall i a, acts !! i = Some a ->
      (occurs_in "SOLD" (str a) ->
       exists r, (i, r) ∈ out /\ transaction_type r = Some SELL) /\
      (~ occurs_in "SOLD" (str a) -> occurs_in "BOUGHT" (str a) ->
       exists r, (i, r) ∈ out /\ transaction_type r = Some BUY) /\
      (~ occurs_in "SOLD" (str a) -> ~ occurs_in "BOUGHT" (str a) ->
       i ∉ out.*1).
Proof.
  apply (C1_classification (pandas := pandas_stable) (laws := stable_laws)
           "orders/raw/trades.csv" start 0 (clean_trades pandas_stable).2).
  vm_compute. reflexivity.
Defined.







(** C5 on the file of the missing-column scenario. *)
Lemma C5_witness :
  (exists w1,
     clean_fidelity_csv (pandas := pandas_stable)
       (raw_path "short.csv") start
       = (Raise (ValueError ("Missing required columns in file: "
                             +:+ raw_path "short.csv")), w1) /\
     stdout w1 = stdout start
                 ++ [AvailableColumns (Py.strip <$> columns short_header)] /\
     written w1 = written start /\ heap w1 = heap start) /\
  (exists w2,
     process_file (pandas := pandas_stable)
       "short.csv" [] start = (Ok [], w2) /\
     written w2 = written start /\
     stdout w2 = stdout start ++
       [Processing (raw_path "short.csv");
        AvailableColumns (Py.strip <$> columns short_header);
        ErrorProcessing (raw_path "short.csv")
          (ValueError ("Missing required columns in file: "
                       +:+ raw_path "short.csv"))]).
Proof.
  apply (C5_missing_column (pandas := pandas_stable)
           "short.csv" [] start short_header).
  - vm_compute. reflexivity.
  - exists "Symbol". split.
    + unfold needed_columns. apply elem_of_cons. right. apply elem_of_cons.
      by left.
    + apply (bool_decide_eq_false_1 _). vm_compute. reflexivity.
Defined.

(** C6 on a directory of three files, two of which fail. *)
Lemma C6_witness :
  exists processed_files w',
    process_raw_files (pandas := pandas_stable) start
      = (Ok processed_files, w') /\
    (forall name e w1,
       name ∈ ["short.csv"; "trades.csv"; "bad.csv"] ->
       clean_fidelity_csv (pandas := pandas_stable)
         (raw_path name) start = (Raise e, w1) ->
       ErrorProcessing (raw_path name) e ∈ stdout w') /\
    (forall name df w1 f,
       name ∈ ["short.csv"; "trades.csv"; "bad.csv"] ->
       clean_fidelity_csv (pandas := pandas_stable)
         (raw_path name) start = (Ok df, w1) ->
       heap w1 !! df = Some (Cleaned f) ->
       (clean_path name, to_csv_clean f) ∈ written w' /\
       (results_path name, to_csv_display (display_frame f)) ∈ written w' /\
       mkProcessed (raw_path name) (clean_path name) (results_path name)
                   (length f) ∈ processed_files).
Proof.
  apply (C6_per_file_isolation (pandas := pandas_stable) start).
  - reflexivity.
  - discriminate.
Defined.

(** C7, as the code has it, on [trades]. *)
Lemma C7_witness :
  let date := fun r : nat * NormalizedRow =>
    from_option DateField Empty (settlement_date r.2) in
  let type := fun r : nat * NormalizedRow =>
    from_option (fun t => Text match t with SELL => "SELL" | BUY => "BUY" end)
                Empty (transaction_type r.2) in
  let two_decimals := fun v =>
    match v with
    | Float x => if F64.isnan x then Empty else Text (F64.format_2f x)
    | Int64 n | UInt64 n => Text (pretty n)
    end in
  let in_full := fun v =>
    match v with
    | Float x => if F64.isnan x then Empty else FloatField x
    | Int64 n | UInt64 n => Text (pretty n)
    end in
  let currency := fun v =>
    Text ("$" +:+ F64.format_2f
                    match v with
                    | Float x => x
                    | Int64 n | UInt64 n => binary_normalize 53 1024 n 0 false
                    end) in
  exists w' canonical display printed stocks,
    process_file (pandas := pandas_stable) "trades.csv" [] start
      = (Ok ([] ++ [mkProcessed (raw_path "trades.csv")
                                (clean_path "trades.csv")
                                (results_path "trades.csv")
                                (length trades_cleaned)]), w') /\
    written w' = written start ++ [(clean_path "trades.csv", canonical);
                                   (results_path "trades.csv", display)] /\
    header canonical = ["Settlement Date"; "Symbol"; "Stock Name"; "Quantity";
                        "Price"; "Total Amount"; "Transaction Type"] /\
    header display = ["Settlement Date"; "Symbol"; "Stock Name";
                      "Transaction Type"; "Quantity"; "Price"; "Total Amount"] /\
    lines canonical =
      (fun r => [date r; from_option Text Empty (symbol r.2);
                 from_option Text Empty (stock_name r.2);
                 two_decimals (quantity r.2); two_decimals (price r.2);
                 two_decimals (total_amount r.2); type r])
        <$> trades_cleaned /\
    lines display =
      (fun r => [date r; from_option Text Empty (symbol r.2);
                 from_option Text Empty (stock_name r.2); type r;
                 in_full (quantity r.2); currency (price r.2);
                 currency (total_amount r.2)]) <$> trades_cleaned /\
    stdout w' = stdout start ++ printed /\
    (forall n, TotalTransactions n ∈ printed <-> n = length trades_cleaned) /\
    (forall n, UniqueStocks n ∈ printed <-> n = length stocks) /\
    NoDup stocks /\
    (forall s, s ∈ stocks <->
               exists i r, (i, r) ∈ trades_cleaned /\ symbol r = s) /\
    (forall t n, TypeCount t n ∈ printed <->
       0 < n /\
       n = length (filter (fun r => transaction_type r.2 = Some t)
                          trades_cleaned)).
Proof.
  apply (C7_outputs_agree (pandas := pandas_stable) (laws := stable_laws)
           "trades.csv" [] start 0 (clean_trades pandas_stable).2 trades_cleaned).
  - vm_compute. reflexivity.
  - vm_compute. reflexivity.
Defined.

(** C7 fails as stated.  The quantity of the one row of [fractions] is
    0.125: the canonical file has it with two decimals, as the text 0.12,
    which stands for another number, and the display file has the number in
    full. *)
Lemma C7_counterexample :
  exists w' canonical display c d x,
    process_file (pandas := pandas_stable) "fractions.csv" [] ledger
      = (Ok [mkProcessed (raw_path "fractions.csv")
                         (clean_path "fractions.csv")
                         (results_path "fractions.csv") 1], w') /\
    written w' = [(clean_path "fractions.csv", canonical);
                  (results_path "fractions.csv", display)] /\
    lines canonical = [c] /\ lines display = [d] /\
    c !! 3 = Some (Text "0.12") /\
    d !! 4 = Some (FloatField x) /\
    x = num "0.125" /\
    num "0.12" <> x /\
    ~ same_quantity_field c d.
Proof.
  eexists _, _, _, _, _, _. split; [vm_compute; reflexivity|].
  split; [reflexivity|]. split; [reflexivity|]. split; [reflexivity|].
  split; [vm_compute; reflexivity|]. split; [reflexivity|].
  split; [vm_compute; reflexivity|].
  split; [vm_compute; discriminate|].
  unfold same_quantity_field. vm_compute. discriminate.
Qed.


(** C9 on the world that [clean_fidelity_csv] leaves for [trades]. *)
Lemma C9_witness :
  exists res w' output_df,
    save_transactions_summary 0 "trades.csv" (clean_trades pandas_stable).2
      = (Ok res, w') /\
    heap w' !! 0 = Some (Cleaned trades_cleaned) /\
    (forall l o, heap (clean_trades pandas_stable).2 !! l = Some o ->
                 heap w' !! l = Some o) /\
    output_df <> 0 /\
    heap (clean_trades pandas_stable).2 !! output_df = None /\
    heap w' !! output_df = Some (Display (display_frame trades_cleaned)).
Proof.
  apply (C9_formatter_leaves_frame 0 "trades.csv" trades_cleaned
           (clean_trades pandas_stable).2).
  vm_compute. reflexivity.
Defined.

(** C10 on [trades], two rows of which have a NaN price or total. *)
Lemma C10_witness :
  exists w' display,
    save_transactions_summary 0 "trades.csv" (clean_trades pandas_stable).2
      = (Ok (clean_path "trades.csv", results_path "trades.csv"), w') /\
    (results_path "trades.csv", display) ∈ written w' /\
    length (lines display) = length trades_cleaned /\
    forall p r, trades_cleaned !! p = Some r ->
      exists ln, lines display !! p = Some ln /\
        (price r.2 = Float F64.nan -> ln !! 5 = Some (Text "$nan")) /\
        (total_amount r.2 = Float F64.nan -> ln !! 6 = Some (Text "$nan")).
Proof.
  apply (C10_nan_rendering 0 "trades.csv" trades_cleaned
           (clean_trades pandas_stable).2).
  vm_compute. reflexivity.
Defined.

(** * Further properties of the program *)

(** ** Facts on [strip] *)

Lemma append_nil_r s : s +:+ EmptyString = s.
Proof. induction s as [|c s IH]; [done|]. by rewrite append_cons, IH. Qed.

Lemma append_assoc s t u : (s +:+ t) +:+ u = s +:+ (t +:+ u).
Proof. induction s as [|c s IH]; [done|]. by rewrite !append_cons, IH. Qed.

Lemma rev_append s t : Py.rev (s +:+ t) = Py.rev t +:+ Py.rev s.
Proof.
  induction s as [|c s IH].
  - by rewrite append_nil_r.
  - rewrite append_cons. cbn [Py.rev]. by rewrite IH, append_assoc.
Qed.

Lemma rev_involutive s : Py.rev (Py.rev s) = s.
Proof.
  induction s as [|c s IH]; [done|].
  cbn [Py.rev]. by rewrite rev_append, IH.
Qed.

Lemma length_append s t :
  String.length (s +:+ t) = String.length s + String.length t.
Proof. induction s as [|c s IH]; [done|]. rewrite append_cons. simpl. by rewrite IH. Qed.

Lemma length_rev s : String.length (Py.rev s) = String.length s.
Proof.
  induction s as [|c s IH]; [done|]. cbn [Py.rev].
  rewrite length_append, IH. simpl. lia.
Qed.

Lemma drop_prefix_spec p s t : Py.drop_prefix p s = Some t <-> s = p +:+ t.
Proof.
  revert s. induction p as [|a p IH]; intros s; simpl.
  - split; [by intros [= ->] | by intros ->].
  - rewrite append_cons. destruct s as [|b s]; [done|].
    destruct (Ascii.eqb_spec a b) as [->|Hne].
    + rewrite IH. split; [by intros -> | by intros [= ->]].
    + split; [done | by intros [= <- _]].
Qed.

Lemma drop_char_Some chars s t :
  Py.drop_char chars s = Some t -> exists c, c ∈ chars /\ s = c +:+ t.
Proof.
  induction chars as [|c chars IH]; simpl; [done|].
  destruct (Py.drop_prefix c s) as [s'|] eqn:E.
  - intros [= <-]. exists c. split; [by left|]. by apply drop_prefix_spec.
  - intros (d & Hd & ->)%IH. exists d. split; [by right | done].
Qed.

Lemma drop_char_None chars s :
  Py.drop_char chars s = None ->
  forall c rest, c ∈ chars -> s <> c +:+ rest.
Proof.
  induction chars as [|c chars IH]; simpl; [by intros _ ? ? ?%elem_of_nil|].
  destruct (Py.drop_prefix c s) as [s'|] eqn:E; [done|].
  intros H d rest [->|Hd]%elem_of_cons.
  - intros Hs%drop_prefix_spec. congruence.
  - by apply IH.
Qed.

Lemma lstrip_chars_spec chars fuel s :
  (forall c, c ∈ chars -> c <> EmptyString) ->
  String.length s <= fuel ->
  exists pre, s = pre +:+ Py.lstrip_chars fuel chars s /\
              made_of chars pre /\
              forall c rest, c ∈ chars ->
                             Py.lstrip_chars fuel chars s <> c +:+ rest.
Proof.
  intros Hne. revert s. induction fuel as [|fuel IH]; intros s Hlen.
  - destruct s; [|simpl in Hlen; lia]. exists EmptyString.
    split_and!; [done | constructor|].
    intros c rest Hc. simpl. specialize (Hne c Hc). by destruct c.
  - cbn [Py.lstrip_chars]. destruct (Py.drop_char chars s) as [s'|] eqn:E.
    + apply drop_char_Some in E as (c & Hc & ->).
      assert (String.length s' <= fuel) as Hlen'.
      { rewrite length_append in Hlen. specialize (Hne c Hc).
        destruct c; [done|]. simpl in Hlen. lia. }
      destruct (IH s' Hlen') as (pre & E & Hpre & Hfront).
      exists (c +:+ pre). split_and!; [|by constructor | done].
      rewrite append_assoc. by rewrite <- E.
    + exists EmptyString. split_and!; [done | constructor|].
      by apply drop_char_None.
Qed.

Lemma made_of_app chars s t :
  made_of chars s -> made_of chars t -> made_of chars (s +:+ t).
Proof.
  induction 1 as [|c s Hc Hs IH]; [done|]. intros Ht.
  rewrite append_assoc. constructor; auto.
Qed.

Lemma made_of_rev chars s :
  made_of (Py.rev <$> chars) s -> made_of chars (Py.rev s).
Proof.
  induction 1 as [|c s Hc Hs IH]; [constructor|].
  apply list_elem_of_fmap in Hc as (d & -> & Hd).
  rewrite rev_append, rev_involutive. apply made_of_app; [done|].
  rewrite <- (append_nil_r d). constructor; [done | constructor].
Qed.

Lemma whitespace_not_empty c : c ∈ Py.whitespace -> c <> EmptyString.
Proof.
  revert c. apply Forall_forall.
  apply (bool_decide_eq_true_1 (Forall (fun c => c <> EmptyString) Py.whitespace)).
  vm_compute. reflexivity.
Qed.

Lemma lstrip_spec s :
  exists pre, s = pre +:+ Py.lstrip s /\ all_space pre /\
              forall c rest, c ∈ Py.whitespace -> Py.lstrip s <> c +:+ rest.
Proof.
  apply (lstrip_chars_spec Py.whitespace); [apply whitespace_not_empty | done].
Qed.

Lemma rstrip_spec s :
  exists post, s = Py.rstrip s +:+ post /\ all_space post /\
               forall c rest, c ∈ Py.whitespace -> Py.rstrip s <> rest +:+ c.
Proof.
  unfold Py.rstrip.
  destruct (lstrip_chars_spec (Py.rev <$> Py.whitespace) (String.length s)
              (Py.rev s)) as (pre & E & Hpre & Hfront).
  { intros c (d & -> & Hd)%list_elem_of_fmap Hc.
    apply (whitespace_not_empty d Hd).
    by rewrite <- (rev_involutive d), Hc. }
  { by rewrite length_rev. }
  exists (Py.rev pre). split_and!.
  - rewrite <- rev_append, <- E. by rewrite rev_involutive.
  - by apply made_of_rev.
  - intros c rest Hc Hs. apply (Hfront (Py.rev c) (Py.rev rest)).
    + apply list_elem_of_fmap. eauto.
    + rewrite <- rev_append, <- Hs. by rewrite rev_involutive.
Qed.

Lemma strip_spec s : strip_of s (Py.strip s).
Proof.
  unfold Py.strip. destruct (lstrip_spec s) as (pre & E & Hpre & Hfront).
  destruct (rstrip_spec (Py.lstrip s)) as (post & E' & Hpost & Hend).
  exists pre, post. split_and!; [|done..|split; [|done]].
  - by rewrite <- E', <- E.
  - intros c rest Hc Hs. apply (Hfront c (rest +:+ post) Hc).
    rewrite E' at 1. by rewrite Hs, append_assoc.
Qed.

Lemma stripped_cell_spec (c : option string) : stripped_cell c (Py.strip <$> c).
Proof. destruct c; simpl; [apply strip_spec | done]. Qed.

(** A no-break space, U+00A0, and an em space, U+2003, are removed like a
    blank. *)
Example strip_beyond_ascii :
  Py.strip (Py.utf8 160 +:+ " Symbol" +:+ Py.utf8 8195) = "Symbol".
Proof. vm_compute. reflexivity. Qed.

(** ** Facts on file names *)

Lemma rfind_dot_csv base :
  Py.rfind_dot (base +:+ ".csv") = Some (String.length base).
Proof.
  induction base as [|c base IH]; [done|].
  rewrite append_cons. cbn [Py.rfind_dot]. by rewrite IH.
Qed.

Lemma substring_append base t :
  String.substring 0 (String.length base) (base +:+ t) = base.
Proof.
  induction base as [|c base IH]; [by destruct t|].
  rewrite append_cons. simpl. by rewrite IH.
Qed.

Lemma stem_csv base :
  base <> EmptyString -> Py.stem (base +:+ ".csv") = base.
Proof.
  intros Hne. unfold Py.stem. rewrite rfind_dot_csv, length_append.
  destruct base as [|c base]; [done|]. cbn [String.length].
  replace (0 <? S (String.length base)) with true
    by (symmetry; apply Nat.ltb_lt; lia).
  replace (S (String.length base) <? S (String.length base) + 4 - 1) with true
    by (symmetry; apply Nat.ltb_lt; lia).
  apply (substring_append (String c base)).
Qed.

Lemma append_inj_l s t u : s +:+ t = s +:+ u -> t = u.
Proof.
  induction s as [|c s IH]; [done|]. rewrite !append_cons. intros [= H]. auto.
Qed.

Lemma clean_path_csv name :
  csv_name name -> clean_path name = "orders/clean/clean_" +:+ name.
Proof. intros (base & Hne & ->). unfold clean_path. by rewrite stem_csv. Qed.

Lemma results_path_csv name :
  csv_name name -> results_path name = "orders/results/summary_" +:+ name.
Proof. intros (base & Hne & ->). unfold results_path. by rewrite stem_csv. Qed.

Lemma clean_path_not_results name1 name2 :
  clean_path name1 <> results_path name2.
Proof. unfold clean_path, results_path. rewrite !append_cons. by intros [=]. Qed.

Lemma clean_path_inj name1 name2 :
  csv_name name1 -> csv_name name2 ->
  clean_path name1 = clean_path name2 -> name1 = name2.
Proof.
  intros H1 H2. rewrite (clean_path_csv _ H1), (clean_path_csv _ H2).
  apply append_inj_l.
Qed.

Lemma results_path_inj name1 name2 :
  csv_name name1 -> csv_name name2 ->
  results_path name1 = results_path name2 -> name1 = name2.
Proof.
  intros H1 H2. rewrite (results_path_csv _ H1), (results_path_csv _ H2).
  apply append_inj_l.
Qed.

(** ** Facts on sums and counts *)

Lemma sum_list_perm (l k : list nat) : l ≡ₚ k -> sum_list l = sum_list k.
Proof. induction 1; simpl; lia. Qed.

Lemma sum_list_fmap_add {A} (a b : A -> nat) (u : list A) :
  sum_list ((fun t => a t + b t) <$> u)
  = sum_list (a <$> u) + sum_list (b <$> u).
Proof. induction u as [|t u IH]; [done|]. rewrite !fmap_cons. simpl. lia. Qed.

Lemma sum_indicator {A} `{EqDecision A} (x : A) (u : list A) :
  NoDup u -> x ∈ u ->
  sum_list ((fun t => if decide (x = t) then 1 else 0) <$> u) = 1.
Proof.
  induction 1 as [|t u Ht Hu IH]; [by intros ?%elem_of_nil|].
  rewrite fmap_cons. simpl. intros [->|Hx]%elem_of_cons.
  - rewrite decide_True by done.
    rewrite (sum_list_fmap_same 0); [lia|].
    apply Forall_forall. intros y Hy. rewrite decide_False; [done|].
    by intros <-.
  - rewrite decide_False by (by intros <-). rewrite IH by done. lia.
Qed.

Lemma count_sum {A} `{EqDecision A} (u l : list A) :
  NoDup u -> (forall x, x ∈ l -> x ∈ u) ->
  sum_list ((fun t => length (filter (fun y => y = t) l)) <$> u) = length l.
Proof.
  intros Hu. induction l as [|x l IH]; intros Hl.
  - rewrite (sum_list_fmap_same 0); [simpl; lia|]. by apply Forall_forall.
  - assert (x ∈ u) as Hx by (apply Hl; by left).
    assert (forall y, y ∈ l -> y ∈ u) as Hl' by (intros y Hy; apply Hl; by right).
    trans (sum_list ((fun t => if decide (x = t) then 1 else 0) <$> u)
           + sum_list ((fun t => length (filter (fun y => y = t) l)) <$> u)).
    + rewrite <- sum_list_fmap_add. f_equal. apply list_fmap_ext.
      intros _ t _. rewrite filter_cons. by destruct (decide (x = t)).
    + rewrite (sum_indicator x u Hu Hx), (IH Hl'). done.
Qed.

Lemma length_unique {A} `{EqDecision A} (l : list A) :
  length (unique l) <= length l.
Proof.
  induction l as [|x l IH]; simpl; [done|].
  pose proof (length_filter (fun y => y <> x) (unique l)). lia.
Qed.

Lemma length_omap_id {A} (l : list (option A)) :
  Forall is_Some l -> length (omap id l) = length l.
Proof.
  induction 1 as [|x l [y ->] _ IH]; [done|].
  change (omap id (Some y :: l)) with (y :: omap id l). simpl. by rewrite IH.
Qed.

Lemma omap_type_count (counts : list (TransactionType * nat)) :
  omap type_count ((fun c => TypeCount c.1 c.2) <$> counts) = counts.*2.
Proof.
  induction counts as [|[t n] counts IH]; [done|].
  rewrite !fmap_cons. cbn [omap list_omap type_count fst snd]. by rewrite <- IH.
Qed.

Ltac in_needed := unfold needed_columns; rewrite !elem_of_cons; auto 10.

Section Further.
Context {pandas : Pandas} {laws : SortLaws pandas}.

(** X1.  The symbol and the stock name of every row of the cleaned frame are
    the texts of the raw row's Symbol and Description cells without the
    whitespace around them: only whitespace is removed, none is left at
    either end, and a missing cell stays missing. *)
Theorem X1_symbols_trimmed file_path w df w' :
  clean_fidelity_csv file_path w = (Ok df, w') ->
  exists raw symbols names out,
    disk w !! file_path = Some raw /\
    getitem (strip_columns raw) "Symbol" = Ok (Series symbols) /\
    getitem (strip_columns raw) "Description" = Ok (Series names) /\
    heap w' !! df = Some (Cleaned out) /\
    forall i r, (i, r) ∈ out ->
      (exists c, symbols !! i = Some c /\ stripped_cell c (symbol r)) /\
      (exists c, names !! i = Some c /\ stripped_cell c (stock_name r)).
Proof.
  intros (raw & out & Hraw & Hcols & Hout & _ & Hdf & _)%clean_fidelity_csv_Ok.
  assert (exists cf, cleaned_columns (strip_columns raw) = Ok cf) as [cf0 Hcf0].
  { unfold clean_frame in Hout.
    destruct (cleaned_columns (strip_columns raw)); [eauto | done]. }
  destruct (cleaned_columns_series _ _ Hcf0)
    as (_ & symbols & names & _ & _ & _ & Hs & Hn & _).
  exists raw, symbols, names, out. split_and!; [done..|].
  intros i r Hin.
  apply (clean_frame_rows _ _ Hout) in Hin as (_ & _ & cf & Hcf & Hi).
  destruct (cleaned_columns_inv _ _ Hcf) as [_ Hrow].
  destruct (Hrow _ _ Hi) as [_ Hr]. simpl in Hr. split.
  - destruct (rf_symbol _ _ _ Hr _ Hs) as (c & Hc & ->).
    exists c. split; [done|]. apply stripped_cell_spec.
  - destruct (rf_name _ _ _ Hr _ Hn) as (c & Hc & ->).
    exists c. split; [done|]. apply stripped_cell_spec.
Qed.


(** ** Facts on the columns of a raw frame *)

Lemma get_loc_lt name cols :
  Forall (fun j => j < length cols) (get_loc name cols).
Proof.
  induction cols as [|c cols IH]; simpl; [done|].
  apply Forall_app. split.
  - destruct (String.eqb c name); [|constructor].
    apply Forall_singleton. simpl. lia.
  - apply Forall_fmap. eapply Forall_impl; [exact IH|].
    intros j Hj. unfold compose. simpl in *. lia.
Qed.

Lemma get_loc_snoc name cols other :
  other <> name -> get_loc name (cols ++ [other]) = get_loc name cols.
Proof.
  intros Hne. induction cols as [|c cols IH]; simpl.
  - by apply String.eqb_neq in Hne as ->.
  - by rewrite IH.
Qed.

Lemma getitem_DataFrame df name cols :
  getitem df name = Ok (DataFrame cols) -> ~ NoDup (columns df).
Proof.
  intros H Hnd. destruct (decide (name ∈ columns df)) as [Hin|Hout].
  - destruct (getitem_NoDup _ _ Hnd Hin) as [col Hcol]. congruence.
  - apply get_loc_nil in Hout. unfold getitem in H. by rewrite Hout in H.
Qed.

Lemma has_needed_columns_true df :
  has_needed_columns df = true <->
  forall col, col ∈ needed_columns -> col ∈ columns df.
Proof.
  unfold has_needed_columns. rewrite forallb_forall.
  split; intros H col Hcol.
  - apply list_elem_of_In, H in Hcol. by apply bool_decide_eq_true_1 in Hcol.
  - apply bool_decide_eq_true_2, H. by apply list_elem_of_In.
Qed.

Lemma zip_with_snoc_lookup (rs : list (list (option string))) cells j :
  Forall (fun r => j < length r) rs -> length cells = length rs ->
  (fun r => mjoin (r !! j)) <$> zip_with (fun r c => r ++ [c]) rs cells
  = (fun r => mjoin (r !! j)) <$> rs.
Proof.
  intros Hrs. revert cells.
  induction Hrs as [|r rs Hr Hrs IH]; intros [|c cells] Hlen; try done.
  cbn [zip_with]. rewrite !fmap_cons. injection Hlen as Hlen.
  rewrite (IH _ Hlen). by rewrite lookup_app_l.
Qed.

Lemma getitem_add_column df name cells col :
  rectangular df -> length cells = length (rows df) ->
  name <> col ->
  getitem (add_column df name cells) col = getitem df col.
Proof.
  intros Hrect Hlen Hne. unfold getitem. cbn [columns add_column].
  rewrite (get_loc_snoc _ _ _ Hne).
  assert (Forall (fun j => column_at (add_column df name cells) j
                           = column_at df j) (get_loc col (columns df))) as E.
  { eapply Forall_impl; [apply get_loc_lt|]. intros j Hj. simpl in Hj.
    unfold column_at. cbn [rows add_column].
    apply zip_with_snoc_lookup; [|done].
    eapply Forall_impl; [exact Hrect|]. intros r Hr. simpl in Hr. lia. }
  destruct (get_loc col (columns df)) as [|j [|k js]]; [done| |].
  - by rewrite (Forall_inv E).
  - f_equal. f_equal. by apply Forall_fmap_ext_1.
Qed.

Lemma cleaned_columns_getitem df df' :
  (forall col, col ∈ needed_columns -> getitem df' col = getitem df col) ->
  length (rows df') = length (rows df) ->
  cleaned_columns df' = cleaned_columns df.
Proof.
  intros H Hlen. unfold cleaned_columns.
  assert (forall sel, apply_classify df' sel = apply_classify df sel) as Ha.
  { intros [col|cols]; simpl; [done|].
    by destruct (rows df'), (rows df). }
  repeat (rewrite ?Ha; rewrite ?H by in_needed;
          match goal with
          | |- rbind ?m _ = _ => destruct m; cbn [rbind]; [|done]
          end).
  done.
Qed.

Lemma strip_columns_add_column df name cells :
  strip_columns (add_column df name cells)
  = add_column (strip_columns df) (Py.strip name) cells.
Proof. unfold strip_columns, add_column. simpl. by rewrite fmap_app. Qed.

(** X2.  A further column at the right of a raw file, under a name that no
    column has yet (two columns of one name would make [df[name]] a frame),
    changes nothing: [clean_fidelity_csv] returns the same reference to the
    same cleaned frame and prints the same. *)
Theorem X2_extra_column_ignored file_path w raw name cells :
  disk w !! file_path = Some raw ->
  has_needed_columns (strip_columns raw) = true ->
  rectangular raw ->
  length cells = length (rows raw) ->
  Py.strip name ∉ Py.strip <$> columns raw ->
  let w2 := with_file w file_path (add_column raw name cells) in
  (clean_fidelity_csv file_path w2).1 = (clean_fidelity_csv file_path w).1 /\
  heap (clean_fidelity_csv file_path w2).2
    = heap (clean_fidelity_csv file_path w).2 /\
  stdout (clean_fidelity_csv file_path w2).2
    = stdout (clean_fidelity_csv file_path w).2.
Proof.
  intros Hraw Hcols Hrect Hlen Hnew w2.
  assert (forall col, col ∈ needed_columns ->
            col ∈ columns (strip_columns raw)) as Hin
    by by apply has_needed_columns_true.
  assert (has_needed_columns (strip_columns (add_column raw name cells)) = true)
    as Hcols2.
  { apply has_needed_columns_true. intros col Hcol.
    rewrite strip_columns_add_column. cbn [columns add_column].
    apply elem_of_app. left. by apply Hin. }
  assert (disk w2 !! file_path = Some (add_column raw name cells)) as Hraw2
    by apply lookup_insert_eq.
  assert (normalized (disk w2) file_path = normalized (disk w) file_path) as E.
  { unfold normalized. rewrite Hraw2, Hraw, Hcols2, Hcols.
    rewrite strip_columns_add_column.
    unfold clean_frame. f_equal. apply cleaned_columns_getitem.
    - intros col Hcol. apply getitem_add_column; [|done|].
      + unfold rectangular, strip_columns. cbn [columns rows].
        by rewrite length_fmap.
      + intros E. apply Hnew. rewrite E. by apply Hin.
    - cbn [rows add_column strip_columns]. rewrite length_zip_with. lia. }
  assert (diagnostics (disk w2) file_path = diagnostics (disk w) file_path)
    as D.
  { unfold diagnostics. by rewrite Hraw2, Hraw, Hcols2, Hcols. }
  rewrite !clean_fidelity_csv_run, E, D.
  by destruct (normalized (disk w) file_path).
Qed.

Lemma transaction_types df cf acts :
  cleaned_columns df = Ok cf -> getitem df "Action" = Ok (Series acts) ->
  (fun r => transaction_type r.2) <$> cf = classify <$> acts.
Proof.
  intros Hcf Hacts. destruct (cleaned_columns_inv _ _ Hcf) as [Hlen Hrow].
  apply list_eq. intros i. rewrite !list_lookup_fmap.
  destruct (cf !! i) as [lr|] eqn:Hi; simpl.
  - destruct (Hrow _ _ Hi) as [_ Hr].
    destruct (rf_type _ _ _ Hr _ Hacts) as (c & -> & ->). done.
  - apply lookup_ge_None in Hi.
    rewrite lookup_ge_None_2; [done|].
    rewrite (getitem_length _ _ _ Hacts). lia.
Qed.

Lemma filter_fmap_length' {A B} (P : B -> Prop) `{forall y, Decision (P y)}
    (g : A -> B) (l : list A) :
  length (filter (fun x => P (g x)) l) = length (filter P (g <$> l)).
Proof.
  induction l as [|x l IH]; [done|].
  rewrite fmap_cons, !filter_cons.
  destruct (decide (P (g x))); simpl; by rewrite IH.
Qed.

Lemma is_Some_classify x : is_Some (classify x) <-> mentions_trade x = true.
Proof.
  unfold classify, mentions_trade.
  destruct (Py.str_in "SOLD" (str x)), (Py.str_in "BOUGHT" (str x)); simpl;
    split; (done || eauto || by intros []).
Qed.

(** X3.  The cleaned frame has as many rows as the raw file has rows whose
    action text mentions SOLD or BOUGHT, hence never more rows than the raw
    file. *)
Theorem X3_transaction_count file_path w df w' :
  clean_fidelity_csv file_path w = (Ok df, w') ->
  exists raw acts out,
    disk w !! file_path = Some raw /\
    (getitem (strip_columns raw) "Action" = Ok (Series acts) \/
     rows raw = [] /\ acts = []) /\
    heap w' !! df = Some (Cleaned out) /\
    length out = length (filter (fun a => mentions_trade a = true) acts) /\
    length out <= length (rows raw).
Proof.
  intros (raw & out & Hraw & Hcols & Hout & _ & Hdf & _)%clean_fidelity_csv_Ok.
  destruct (clean_frame_perm _ _ Hout) as (cf & Hcf & Hperm).
  apply Permutation_length in Hperm.
  destruct (cleaned_columns_inv _ _ Hcf) as [Hl _].
  change (rows (strip_columns raw)) with (rows raw) in Hl.
  assert (length out <= length (rows raw)) as Hle
    by (rewrite Hperm, <- Hl; apply length_filter).
  destruct (cleaned_columns_series _ _ Hcf)
    as (_ & _ & _ & _ & _ & _ & _ & _ & _ & _ & [[acts Hacts]|Hnone]).
  - exists raw, acts, out. split_and!; [done | by left | done | | done].
    rewrite Hperm. unfold dropna_type.
    rewrite (filter_fmap_length' (fun t => is_Some t)
               (fun r : nat * NormalizedRow => transaction_type r.2)).
    rewrite (transaction_types _ _ _ Hcf Hacts).
    rewrite <- (filter_fmap_length' (fun t => is_Some t) classify).
    f_equal. apply list_filter_iff. intros a. apply is_Some_classify.
  - change (rows (strip_columns raw)) with (rows raw) in Hnone.
    exists raw, [], out. split_and!; [done | by right | done | | done].
    rewrite Hnone in Hle. simpl in *. lia.
Qed.

(** X4.  The settlement date of every row of the cleaned frame is what the
    date parser makes of the raw row's cell, a missing cell giving no date,
    and its quantity is the number of the raw row's cell as [to_numeric]
    reads it: the quantity is not rounded. *)
Theorem X4_dates_and_quantities file_path w df w' :
  clean_fidelity_csv file_path w = (Ok df, w') ->
  exists raw dates quantities out,
    disk w !! file_path = Some raw /\
    getitem (strip_columns raw) "Settlement Date" = Ok (Series dates) /\
    getitem (strip_columns raw) "Quantity" = Ok (Series quantities) /\
    heap w' !! df = Some (Cleaned out) /\
    forall i r, (i, r) ∈ out ->
      (exists c, dates !! i = Some c /\
         match c with
         | Some s => parse_date dates s = Some (settlement_date r)
         | None => settlement_date r = None
         end) /\
      (exists c, quantities !! i = Some c /\
         match quantity r with
         | Float x =>
             x = match c ≫= parse_number with
                 | Some (Integer _ y) | Some (Decimal y) => y
                 | None => F64.nan
                 end
         | Int64 n | UInt64 n =>
             exists y, c ≫= parse_number = Some (Integer n y)
         end).
Proof.
  intros (raw & out & Hraw & Hcols & Hout & _ & Hdf & _)%clean_fidelity_csv_Ok.
  destruct (clean_frame_inv _ _ Hout) as (cf0 & Hcf0 & _).
  destruct (cleaned_columns_series _ _ Hcf0)
    as (dates & _ & _ & quantities & _ & Hd & _ & _ & Hq & _).
  exists raw, dates, quantities, out. split_and!; [done..|].
  intros i r Hin.
  apply (clean_frame_rows _ _ Hout) in Hin as (_ & _ & cf & Hcf & Hi).
  destruct (cleaned_columns_inv _ _ Hcf) as [_ Hrow].
  destruct (Hrow _ _ Hi) as [_ Hr]. simpl in Hr. split.
  - destruct (rf_date _ _ _ Hr _ Hd) as (c & Hc & Hp).
    exists c. split; [done|]. destruct c as [s|]; simpl in Hp; congruence.
  - pose proof (rf_quantity _ _ _ Hr _ Hq) as Hv.
    destruct (to_numeric_series_lookup _ _ _ Hv) as (c & Hc & Hvc).
    exists c. split; [done|].
    destruct (quantity r) as [n|n|x]; [by apply integer_Some..|].
    by rewrite Hvc.
Qed.

Lemma take_nil {A} (indexer : list nat) : take (@nil A) indexer = [].
Proof. unfold take. by induction indexer. Qed.

Lemma getitem_no_rows df name col :
  rows df = [] -> getitem df name = Ok (Series col) -> col = [].
Proof.
  intros Hrows Hcol. apply getitem_length in Hcol. rewrite Hrows in Hcol.
  by destruct col.
Qed.

(** X5.  A file that holds the header and no row is processed like any
    other, given that no two of its column names are equal once trimmed
    (two columns of a needed name would make [df[name]] a frame) and that
    pandas takes an empty column for text: both output files are written,
    with their headers and no line, and the statistics printed are zero
    transactions, zero stocks and no type. *)
Theorem X5_header_only_file name acc w raw :
  disk w !! raw_path name = Some raw ->
  has_needed_columns (strip_columns raw) = true ->
  NoDup (Py.strip <$> columns raw) ->
  rows raw = [] ->
  object_dtype [] = true ->
  exists w',
    process_file name acc w
      = (Ok (acc ++ [mkProcessed (raw_path name) (clean_path name)
                                 (results_path name) 0]), w') /\
    written w' = written w ++
      [(clean_path name,
        mkCsv ["Settlement Date"; "Symbol"; "Stock Name"; "Quantity"; "Price";
               "Total Amount"; "Transaction Type"] []);
       (results_path name,
        mkCsv ["Settlement Date"; "Symbol"; "Stock Name"; "Transaction Type";
               "Quantity"; "Price"; "Total Amount"] [])] /\
    stdout w' = stdout w ++
      [Processing (raw_path name); CleanedSavedTo (clean_path name);
       SummarySavedTo (results_path name); MostRecent [];
       TotalTransactions 0; UniqueStocks 0].
Proof.
  intros Hraw Hcols Hnd Hrows Htext.
  assert (normalized (disk w) (raw_path name) = Ok []) as Hn.
  { unfold normalized. rewrite Hraw, Hcols.
    assert (forall col, col ∈ needed_columns ->
              getitem (strip_columns raw) col = Ok (Series [])) as Hget.
    { intros col Hcol.
      destruct (getitem_NoDup (strip_columns raw) col Hnd) as [c Hc];
        [by apply has_needed_columns_true|].
      by rewrite Hc, (getitem_no_rows (strip_columns raw) _ _ Hrows Hc). }
    unfold clean_frame, cleaned_columns.
    rewrite (Hget "Settlement Date") by in_needed. cbn [rbind].
    change (to_datetime (Series [])) with (Ok (@nil (option Z))).
    cbn [rbind]. rewrite (Hget "Symbol") by in_needed.
    cbn [rbind str_strip]. rewrite Htext. cbn [rbind].
    rewrite (Hget "Description") by in_needed.
    cbn [rbind str_strip]. rewrite Htext. cbn [rbind].
    rewrite (Hget "Quantity") by in_needed. cbn [rbind to_numeric].
    rewrite (Hget "Price") by in_needed. cbn [rbind to_numeric].
    rewrite (Hget "Action") by in_needed.
    cbn. unfold sort_values_desc. by rewrite take_nil. }
  rewrite process_file_run, Hn. cbn zeta.
  eexists. split; [reflexivity|]. cbn [written stdout]. split; [reflexivity|].
  unfold statistics, value_counts. cbn [fmap list_fmap omap list_omap unique].
  by rewrite take_nil.
Qed.


(** X6.  A canonical file cannot be fed back to the program: a raw file
    under the header of [to_csv_clean] lacks needed columns, so
    [clean_fidelity_csv] raises the error of line 28 on it and
    [process_file] writes nothing for it. *)
Theorem X6_canonical_file_is_no_input name acc w raw f :
  disk w !! raw_path name = Some raw ->
  columns raw = header (to_csv_clean f) ->
  exists w1 w2,
    clean_fidelity_csv (raw_path name) w
      = (Raise (ValueError ("Missing required columns in file: "
                            +:+ raw_path name)), w1) /\
    process_file name acc w = (Ok acc, w2) /\
    written w2 = written w /\
    ErrorProcessing (raw_path name)
      (ValueError ("Missing required columns in file: " +:+ raw_path name))
      ∈ stdout w2.
Proof.
  intros Hraw Hcols.
  assert (has_needed_columns (strip_columns raw) = false) as Hmiss.
  { unfold has_needed_columns, strip_columns. cbn [columns].
    rewrite Hcols. by vm_compute. }
  assert (normalized (disk w) (raw_path name)
          = Raise (missing_columns_error (raw_path name))) as Hn.
  { unfold normalized. by rewrite Hraw, Hmiss. }
  rewrite clean_fidelity_csv_run, process_file_run, Hn.
  eexists _, _. split_and!; [reflexivity..|].
  cbn [stdout]. rewrite !elem_of_app. right. right. right.
  by apply list_elem_of_singleton.
Qed.

(** ** Facts on [value_counts] *)

Lemma value_counts_perm (col : list (option TransactionType)) :
  value_counts col ≡ₚ
    (fun t => (t, length (filter (fun y => y = t) (omap id col))))
      <$> unique (omap id col).
Proof.
  unfold value_counts.
  rewrite (take_perm _ _ _ (nargsort_desc_perm _)).
  by rewrite length_fmap, take_seq.
Qed.

Lemma value_counts_sum (col : list (option TransactionType)) :
  sum_list (value_counts col).*2 = length (omap id col).
Proof.
  rewrite (sum_list_perm _ _ (fmap_Permutation snd _ _ (value_counts_perm col))).
  rewrite <- list_fmap_compose.
  apply (count_sum (unique (omap id col)) (omap id col)).
  - apply NoDup_unique.
  - intros x. by rewrite elem_of_unique.
Qed.

Lemma value_counts_descend (col : list (option TransactionType)) p n1 n2 :
  (value_counts col).*2 !! p = Some n1 ->
  (value_counts col).*2 !! S p = Some n2 -> n2 <= n1.
Proof.
  unfold value_counts.
  set (counts := (fun t => (t, length (filter (fun y => y = t) (omap id col))))
                   <$> unique (omap id col)).
  set (keys := (fun c : TransactionType * nat => Some (Z.of_nat c.2)) <$> counts).
  destruct (nargsort_desc_keys keys) as (dated & undated & Hkeys & Hs & Hn).
  unfold keys in Hkeys at 1. rewrite take_fmap in Hkeys.
  intros H1 H2.
  assert (in_order (Some (Z.of_nat n1)) (Some (Z.of_nat n2))) as Ho.
  { apply (dated_then_undated_in_order dated undated Hs Hn p);
      rewrite <- Hkeys, list_lookup_fmap.
    - rewrite list_lookup_fmap in H1.
      destruct (take counts (nargsort_desc keys) !! p) as [c|]; [|done].
      simpl in *. congruence.
    - rewrite list_lookup_fmap in H2.
      destruct (take counts (nargsort_desc keys) !! S p) as [c|]; [|done].
      simpl in *. congruence. }
  simpl in Ho. lia.
Qed.

(** X7.  The counts by type that [process_file] prints after the two files
    are written add up to the number of transactions, and they are printed
    largest first; the number of unique stocks printed is at most the number
    of transactions. *)
Theorem X7_type_counts name acc w df w1 f :
  clean_fidelity_csv (raw_path name) w = (Ok df, w1) ->
  heap w1 !! df = Some (Cleaned f) ->
  exists res w' printed,
    process_file name acc w = (Ok res, w') /\
    stdout w' = stdout w ++ printed /\
    TotalTransactions (length f) ∈ printed /\
    sum_list (omap type_count printed) = length f /\
    (forall p n1 n2,
       omap type_count printed !! p = Some n1 ->
       omap type_count printed !! S p = Some n2 -> n2 <= n1).
Proof.
  intros Hok Hdf.
  pose proof (clean_fidelity_csv_normalized_Ok _ _ _ _ _ Hok Hdf) as Hn.
  rewrite process_file_run, Hn. cbn zeta.
  eexists _, _, _. split; [reflexivity|]. cbn [stdout].
  split; [reflexivity|]. unfold statistics. cbn [app].
  assert (forall l : list message,
            omap type_count
              (Processing (raw_path name) :: CleanedSavedTo (clean_path name)
               :: SummarySavedTo (results_path name)
               :: MostRecent (firstn 5 (display_frame f))
               :: TotalTransactions (length f)
               :: UniqueStocks (length (unique ((fun r => symbol r.2) <$> f)))
               :: l) = omap type_count l) as E by done.
  rewrite E, omap_type_count. split_and!.
  - do 4 right. by left.
  - rewrite value_counts_sum, length_omap_id, length_fmap; [done|].
    apply Forall_fmap, Forall_forall. intros [i r] Hin. simpl.
    apply clean_fidelity_csv_Ok in Hok
      as (raw & out & _ & _ & Hout & _ & Hdf' & _).
    rewrite Hdf in Hdf'. injection Hdf' as ->.
    by apply (clean_frame_rows _ _ Hout) in Hin as (_ & ? & _).
  - apply value_counts_descend.
Qed.

(** X8.  The number of unique stocks that [process_file] prints is the
    number of distinct symbols of the cleaned frame, a missing symbol counting
    as one of them; it is at most the number of transactions. *)
Theorem X8_unique_stocks name acc w df w1 f :
  clean_fidelity_csv (raw_path name) w = (Ok df, w1) ->
  heap w1 !! df = Some (Cleaned f) ->
  exists res w' printed stocks,
    process_file name acc w = (Ok res, w') /\
    stdout w' = stdout w ++ printed /\
    (forall n, UniqueStocks n ∈ printed <-> n = length stocks) /\
    NoDup stocks /\
    (forall s, s ∈ stocks <-> exists i r, (i, r) ∈ f /\ symbol r = s) /\
    length stocks <= length f.
Proof.
  intros Hok Hdf.
  pose proof (clean_fidelity_csv_normalized_Ok _ _ _ _ _ Hok Hdf) as Hn.
  rewrite process_file_run, Hn. cbn zeta.
  eexists _, _, _, (unique ((fun r => symbol r.2) <$> f)).
  split; [reflexivity|]. cbn [stdout]. split; [reflexivity|].
  unfold statistics. cbn [app]. split_and!.
  - intros n. rewrite !elem_of_cons, list_elem_of_fmap. split.
    + intros [?|[?|[?|[?|[?|[?|([t' n'] & ? & _)]]]]]]; congruence.
    + intros ->. do 5 right. by left.
  - apply NoDup_unique.
  - intros s. rewrite elem_of_unique, list_elem_of_fmap. split.
    + intros ([i r] & -> & Hin). by exists i, r.
    + intros (i & r & Hin & <-). by exists (i, r).
  - etrans; [apply length_unique|]. by rewrite length_fmap.
Qed.

(** ** Facts on the loop of [process_raw_files] *)

Lemma normalized_is_ok file_path w :
  is_ok (clean_fidelity_csv file_path w).1
  = is_ok (normalized (disk w) file_path).
Proof.
  rewrite clean_fidelity_csv_run. by destruct (normalized (disk w) file_path).
Qed.

Lemma entries_inputs w names :
  p_input <$> entries (disk w) names
  = raw_path <$>
      filter (fun name => is_ok (clean_fidelity_csv (raw_path name) w).1 = true)
             names.
Proof.
  induction names as [|name names IH]; [done|].
  change (entries (disk w) (name :: names))
    with (match normalized (disk w) (raw_path name) with
          | Ok f => [entry name f]
          | Raise _ => []
          end ++ entries (disk w) names).
  rewrite fmap_app, IH, filter_cons, normalized_is_ok.
  destruct (normalized (disk w) (raw_path name)); cbn [is_ok].
  - by rewrite decide_True by done.
  - by rewrite decide_False by done.
Qed.

Lemma entries_paths files names p :
  p ∈ entries files names ->
  exists name, name ∈ names /\ p_input p = raw_path name /\
    p_clean p = clean_path name /\ p_results p = results_path name.
Proof.
  intros (name & Hin & Hp)%elem_of_flat_map. exists name. split; [done|].
  destruct (normalized files (raw_path name)); [|by apply elem_of_nil in Hp].
  by apply list_elem_of_singleton in Hp as ->.
Qed.

Lemma report_announces files names :
  omap processing_path (flat_map (report files) names) = raw_path <$> names.
Proof.
  induction names as [|name names IH]; [done|].
  cbn [flat_map]. rewrite omap_app, IH, fmap_cons.
  assert (omap processing_path (report files name) = [raw_path name]) as ->;
    [|done].
  unfold report, statistics, diagnostics.
  destruct (normalized files (raw_path name)).
  - cbn [app omap list_omap processing_path].
    induction (value_counts _) as [|c l IHl]; [done|]. by rewrite fmap_cons.
  - destruct (files !! raw_path name); [|done].
    by destruct (has_needed_columns _).
Qed.

Lemma all_outputs_paths files names path content :
  (path, content) ∈ all_outputs files names ->
  exists name, name ∈ names /\
    (path = clean_path name \/ path = results_path name).
Proof.
  intros (name & Hin & Hp)%elem_of_flat_map. exists name. split; [done|].
  destruct (normalized files (raw_path name)); [|by apply elem_of_nil in Hp].
  unfold outputs in Hp. rewrite !elem_of_cons, elem_of_nil in Hp.
  destruct Hp as [[= -> _]|[[= -> _]|[]]]; auto.
Qed.

Lemma all_outputs_NoDup files names :
  NoDup names -> Forall csv_name names ->
  NoDup (all_outputs files names).*1.
Proof.
  induction 1 as [|name names Hname Hnames IH]; [constructor|].
  intros [Hcsv Hall]%Forall_cons.
  change (all_outputs files (name :: names))
    with (match normalized files (raw_path name) with
          | Ok f => outputs name f
          | Raise _ => []
          end ++ all_outputs files names).
  rewrite fmap_app. apply NoDup_app. split_and!; [| |by apply IH].
  - destruct (normalized files (raw_path name)); [|constructor].
    unfold outputs. cbn [fmap list_fmap fst].
    apply NoDup_cons. split; [|apply NoDup_singleton].
    rewrite list_elem_of_singleton. apply clean_path_not_results.
  - intros path Hp ([path' content] & E & Hin)%list_elem_of_fmap.
    simpl in E. subst path'.
    apply all_outputs_paths in Hin as (name' & Hin' & Hpath).
    assert (csv_name name') as Hcsv'
      by by apply (proj1 (Forall_forall _ _) Hall).
    assert (name <> name') as Hne by (by intros ->).
    destruct (normalized files (raw_path name)); [|by apply elem_of_nil in Hp].
    unfold outputs in Hp. cbn [fmap list_fmap fst] in Hp.
    rewrite !elem_of_cons, elem_of_nil in Hp.
    destruct Hp as [->|[->|[]]], Hpath as [E|E].
    + by apply Hne, clean_path_inj.
    + by apply clean_path_not_results in E.
    + symmetry in E. by apply clean_path_not_results in E.
    + by apply Hne, results_path_inj.
Qed.

(** X9.  For a file name with the extension [.csv] (and something in front
    of it) the two output paths are [orders/clean/clean_] and
    [orders/results/summary_] followed by that very name; two such names
    never share an output path. *)
Theorem X9_output_paths name1 name2 :
  csv_name name1 -> csv_name name2 ->
  clean_path name1 = "orders/clean/clean_" +:+ name1 /\
  results_path name1 = "orders/results/summary_" +:+ name1 /\
  clean_path name1 <> results_path name2 /\
  (clean_path name1 = clean_path name2 -> name1 = name2) /\
  (results_path name1 = results_path name2 -> name1 = name2).
Proof.
  intros H1 H2. split_and!.
  - by apply clean_path_csv.
  - by apply results_path_csv.
  - apply clean_path_not_results.
  - by apply clean_path_inj.
  - by apply results_path_inj.
Qed.

(** X10.  When the names of the raw directory are distinct and all have the
    extension [.csv], no output path is written twice in a run of
    [process_raw_files]: no file's output is overwritten by another's. *)
Theorem X10_outputs_not_overwritten w names :
  raw_dir w = Some names -> NoDup names -> Forall csv_name names ->
  exists new,
    written (process_raw_files w).2 = written w ++ new /\ NoDup new.*1.
Proof.
  intros Hdir Hnames Hcsv. unfold process_raw_files. rewrite Hdir.
  destruct names as [|n0 names0].
  - exists []. split; [by rewrite app_nil_r | constructor].
  - destruct (for_each_file_run (n0 :: names0) [] w)
      as (w' & -> & _ & _ & Hw & _).
    exists (all_outputs (disk w) (n0 :: names0)). split; [done|].
    by apply all_outputs_NoDup.
Qed.

(** X11.  A run of [process_raw_files] over a directory that holds files
    announces every file, in the order of the directory listing, and returns
    one entry for each file on which [clean_fidelity_csv] succeeds, in that
    same order; an entry carries the three paths of its file. *)
Theorem X11_processed_files_in_order w names :
  raw_dir w = Some names -> names <> [] ->
  exists processed_files w' printed,
    process_raw_files w = (Ok processed_files, w') /\
    p_input <$> processed_files
      = raw_path <$>
          filter (fun name =>
                    is_ok (clean_fidelity_csv (raw_path name) w).1 = true)
                 names /\
    (forall p, p ∈ processed_files ->
       exists name, name ∈ names /\ p_input p = raw_path name /\
         p_clean p = clean_path name /\ p_results p = results_path name) /\
    stdout w' = stdout w ++ printed /\
    omap processing_path printed = raw_path <$> names.
Proof.
  intros Hdir Hne. unfold process_raw_files. rewrite Hdir.
  destruct names as [|n0 names0]; [done|]. set (names := n0 :: names0) in *.
  destruct (for_each_file_run names [] w)
    as (w' & Hrun & _ & _ & _ & Hs & _).
  rewrite app_nil_l in Hrun.
  exists (entries (disk w) names), w', (flat_map (report (disk w)) names).
  split_and!; [done| | |done|].
  - apply entries_inputs.
  - apply entries_paths.
  - apply report_announces.
Qed.

(** X12.  Whatever its outcome, a run of [process_raw_files] leaves the raw
    files and the directory listing as they were, keeps every object that
    existed, only adds to what was written and printed, and writes nowhere
    but to the clean and results paths of the files of the raw directory. *)
Theorem X12_inputs_untouched w :
  let w' := (process_raw_files w).2 in
  disk w' = disk w /\ raw_dir w' = raw_dir w /\
  (forall l o, heap w !! l = Some o -> heap w' !! l = Some o) /\
  exists new printed,
    written w' = written w ++ new /\ stdout w' = stdout w ++ printed /\
    forall path content, (path, content) ∈ new ->
      exists name, name ∈ default [] (raw_dir w) /\
        (path = clean_path name \/ path = results_path name).
Proof.
  unfold process_raw_files.
  destruct (raw_dir w) as [[|n0 names0]|] eqn:Hdir; cbn zeta.
  - split_and!; [done..|]. exists [], [].
    rewrite !app_nil_r. split_and!; [done..|]. by intros ? ? ?%elem_of_nil.
  - destruct (for_each_file_run (n0 :: names0) [] w)
      as (w' & -> & Hd & Hk & Hw & Hs & Hh).
    cbn [snd]. split_and!; [done|congruence| |].
    + intros l o Hl. by apply (lookup_weaken _ _ _ _ Hl).
    + exists (all_outputs (disk w) (n0 :: names0)),
             (flat_map (report (disk w)) (n0 :: names0)).
      split_and!; [done..|]. apply all_outputs_paths.
  - split_and!; [done..|]. exists [], [].
    rewrite !app_nil_r. split_and!; [done..|]. by intros ? ? ?%elem_of_nil.
Qed.


(** ** The errors of a file *)

Lemma cleaned_columns_Raise df e :
  has_needed_columns df = true -> cleaned_columns df = Raise e ->
  e = DateParseError \/ e = AttributeError \/
  ~ NoDup (columns df) /\
  (e = ValueError "cannot assemble with duplicate keys" \/ e = TypeError \/
   e = ReindexError \/ empty_frame_error = Some e).
Proof.
  intros Hcols. unfold cleaned_columns.
  destruct (getitem_needed _ "Settlement Date" Hcols) as [c1 H1]; [in_needed|].
  destruct (getitem_needed _ "Symbol" Hcols) as [c2 H2]; [in_needed|].
  destruct (getitem_needed _ "Description" Hcols) as [c3 H3]; [in_needed|].
  destruct (getitem_needed _ "Quantity" Hcols) as [c4 H4]; [in_needed|].
  destruct (getitem_needed _ "Price" Hcols) as [c5 H5]; [in_needed|].
  destruct (getitem_needed _ "Action" Hcols) as [c6 H6]; [in_needed|].
  rewrite H1. cbn [rbind].
  destruct c1 as [c1|c1]; cbn [to_datetime];
    [|apply getitem_DataFrame in H1; intros [= <-]; auto 10].
  destruct (mapM (parse_cell c1) c1); cbn [rbind]; [|intros [= <-]; auto].
  rewrite H2. cbn [rbind].
  destruct c2 as [c2|c2]; cbn [str_strip]; [|intros [= <-]; auto].
  destruct (object_dtype c2); cbn [rbind]; [|intros [= <-]; auto].
  rewrite H3. cbn [rbind].
  destruct c3 as [c3|c3]; cbn [str_strip]; [|intros [= <-]; auto].
  destruct (object_dtype c3); cbn [rbind]; [|intros [= <-]; auto].
  rewrite H4. cbn [rbind].
  destruct c4 as [c4|c4]; cbn [to_numeric rbind];
    [|apply getitem_DataFrame in H4; intros [= <-]; auto 10].
  rewrite H5. cbn [rbind].
  destruct c5 as [c5|c5]; cbn [to_numeric rbind];
    [|apply getitem_DataFrame in H5; intros [= <-]; auto 10].
  rewrite H6. cbn [rbind].
  destruct c6 as [c6|c6]; cbn [apply_classify rbind]; [done|].
  apply getitem_DataFrame in H6.
  destruct (rows df); [|intros [= <-]; auto 10].
  destruct empty_frame_error as [e'|] eqn:E; cbn [rbind]; [|done].
  intros [= <-]. auto 10.
Qed.

Lemma normalized_Raise files file_path e :
  normalized files file_path = Raise e ->
  e = ReadError file_path \/ e = missing_columns_error file_path \/
  e = DateParseError \/ e = AttributeError \/
  (exists raw, files !! file_path = Some raw /\
               ~ NoDup (Py.strip <$> columns raw)) /\
  (e = ValueError "cannot assemble with duplicate keys" \/ e = TypeError \/
   e = ReindexError \/ empty_frame_error = Some e).
Proof.
  unfold normalized.
  destruct (files !! file_path) as [raw|]; [|intros [= <-]; auto].
  destruct (has_needed_columns (strip_columns raw)) eqn:Hcols;
    [|intros [= <-]; auto].
  unfold clean_frame.
  destruct (cleaned_columns (strip_columns raw)) as [cf|e'] eqn:Hcf; [done|].
  cbn [rbind]. intros [= <-].
  destruct (cleaned_columns_Raise _ _ Hcols Hcf) as [?|[?|[Hnd ?]]]; eauto 10.
Qed.

(** X13.  The only errors that [process_file] reports for a file are: the
    file cannot be read, the header lacks a needed column, a settlement date
    does not parse, the symbol or the description column is not text, and,
    when two column names of the file are equal once trimmed, the error that
    pandas raises on the frame that [df[name]] then is: [ValueError] from
    [to_datetime], [AttributeError] from [.str], [TypeError] from
    [to_numeric], the reindexing error of the assignment of line 42 or what
    that line raises on a frame without rows.  In particular no [KeyError]
    comes up once the header has been checked, and the formatter adds no
    error ([to_csv] is taken not to fail, as in [write_file]).  A file with
    an error is skipped: nothing is written for it, no object is created and
    the result list is as it was. *)
Theorem X13_error_kinds name acc w path e :
  ErrorProcessing path e
    ∈ drop (length (stdout w)) (stdout (process_file name acc w).2) ->
  path = raw_path name /\
  (e = ReadError (raw_path name) \/
   e = ValueError ("Missing required columns in file: " +:+ raw_path name) \/
   e = DateParseError \/ e = AttributeError \/
   (exists raw, disk w !! raw_path name = Some raw /\
                ~ NoDup (Py.strip <$> columns raw)) /\
   (e = ValueError "cannot assemble with duplicate keys" \/ e = TypeError \/
    e = ReindexError \/ empty_frame_error = Some e)) /\
  (process_file name acc w).1 = Ok acc /\
  written (process_file name acc w).2 = written w /\
  heap (process_file name acc w).2 = heap w.
Proof.
  rewrite process_file_run.
  destruct (normalized (disk w) (raw_path name)) as [f|e'] eqn:Hn;
    cbn [snd fst stdout written heap]; rewrite drop_app_length.
  - unfold statistics. cbn [app]. rewrite !elem_of_cons, list_elem_of_fmap.
    intros [?|[?|[?|[?|[?|[?|([t' n'] & ? & _)]]]]]]; congruence.
  - rewrite !elem_of_app, !list_elem_of_singleton. intros [?|[Hd|[= -> ->]]].
    + congruence.
    + unfold diagnostics in Hd.
      destruct (disk w !! raw_path name); [|by apply elem_of_nil in Hd].
      destruct (has_needed_columns _); [by apply elem_of_nil in Hd|].
      by apply list_elem_of_singleton in Hd.
    + split_and!; [done| |done..]. by apply (normalized_Raise (disk w)).
Qed.


(** X14.  [process_raw_files] raises exactly when the raw directory does
    not exist or holds no CSV file, with the error of line 97 in the first
    case and that of line 101 in the second, and it has printed and written
    nothing by then. *)
Theorem X14_run_errors w :
  (raw_dir w = None ->
   process_raw_files w
   = (Raise (ValueError "'orders/raw' directory not found. Please create it and add your CSV files."),
      w)) /\
  (raw_dir w = Some [] ->
   process_raw_files w
   = (Raise (ValueError "No CSV files found in 'orders/raw' directory."), w)) /\
  (forall e w', process_raw_files w = (Raise e, w') ->
     (raw_dir w = None \/ raw_dir w = Some []) /\ w' = w).
Proof.
  unfold process_raw_files. split_and!.
  - by intros ->.
  - by intros ->.
  - intros e w'. destruct (raw_dir w) as [[|n0 names0]|].
    + intros [= _ <-]. auto.
    + destruct (for_each_file_run (n0 :: names0) [] w) as (w1 & -> & _).
      done.
    + intros [= _ <-]. auto.
Qed.

(** ** [main] and [setup_directories] *)

Lemma with_raw_dir_listed w names :
  raw_dir w = Some names -> with_raw_dir w = w.
Proof. destruct w. unfold with_raw_dir. simpl. by intros ->. Qed.

(** X15.  After [setup_directories] the three directories exist, every
    directory that existed still does, and nothing else has changed: a raw
    directory that existed keeps its listing, a new one is empty.  Running
    it a second time changes nothing. *)
Theorem X15_setup_directories m :
  let m1 := (setup_directories m).2 in
  "orders/raw" ∈ directories m1 /\ "orders/clean" ∈ directories m1 /\
  "orders/results" ∈ directories m1 /\
  directories m ⊆ directories m1 /\
  raw_dir (state m1) = Some (default [] (raw_dir (state m))) /\
  disk (state m1) = disk (state m) /\
  written (state m1) = written (state m) /\
  stdout (state m1) = stdout (state m) /\
  heap (state m1) = heap (state m) /\
  (setup_directories m1).2 = m1.
Proof.
  unfold setup_directories, mkdir. cbn [snd foldl directories state].
  split_and!; try done.
  - rewrite !elem_of_union, !elem_of_singleton. auto 10.
  - rewrite !elem_of_union, !elem_of_singleton. auto 10.
  - rewrite !elem_of_union, !elem_of_singleton. auto 10.
  - intros d Hd. rewrite !elem_of_union. auto 10.
  - f_equal.
    apply set_eq. intros d. rewrite !elem_of_union, !elem_of_singleton. tauto.
Qed.

(** X16.  [main] reports an error exactly when the raw directory holds no
    CSV file, the error being that of line 101 also on a machine without the
    directory, which [main] has created by then; nothing is written in that
    case.  Otherwise it prints the four summary lines of every entry that
    [process_raw_files] returns on the world it was started in. *)
Theorem X16_main_reports m :
  ((raw_dir (state m) = None \/ raw_dir (state m) = Some []) ->
   main m = ([MainError (ValueError "No CSV files found in 'orders/raw' directory.")],
             (setup_directories m).2)) /\
  (forall names, raw_dir (state m) = Some names -> names <> [] ->
   exists processed_files w',
     process_raw_files (state m) = (Ok processed_files, w') /\
     main m = (flat_map summary_lines processed_files,
               mkMachine (directories (setup_directories m).2) w') /\
     forall e, MainError e ∉ (main m).1).
Proof.
  unfold main. cbn [setup_directories state directories snd]. split.
  - intros Hdir. unfold process_raw_files. cbn [raw_dir with_raw_dir].
    by destruct Hdir as [-> | ->].
  - intros names Hdir Hne. rewrite (with_raw_dir_listed _ _ Hdir).
    unfold process_raw_files. rewrite Hdir.
    destruct names as [|n0 names0]; [done|].
    destruct (for_each_file_run (n0 :: names0) [] (state m))
      as (w' & Hrun & _).
    rewrite Hrun. eexists _, w'. split_and!; [reflexivity..|].
    intros e. cbn [fst]. rewrite elem_of_flat_map.
    intros (p & _ & Hp). unfold summary_lines in Hp.
    rewrite !elem_of_cons, elem_of_nil in Hp.
    by destruct Hp as [?|[?|[?|[?|[]]]]].
Qed.

End Further.

(** X1 on [trades], whose first symbol is given with blanks around it. *)
Lemma X1_witness :
  exists raw symbols names out,
    disk start !! "orders/raw/trades.csv" = Some raw /\
    getitem (strip_columns raw) "Symbol" = Ok (Series symbols) /\
    getitem (strip_columns raw) "Description" = Ok (Series names) /\
    heap (clean_trades pandas_stable).2 !! 0 = Some (Cleaned out) /\
    forall i r, (i, r) ∈ out ->
      (exists c, symbols !! i = Some c /\ stripped_cell c (symbol r)) /\
      (exists c, names !! i = Some c /\ stripped_cell c (stock_name r)).
Proof.
  apply (X1_symbols_trimmed (pandas := pandas_stable) (laws := stable_laws)
           "orders/raw/trades.csv" start 0 (clean_trades pandas_stable).2).
  vm_compute. reflexivity.
Defined.

(** X2 on [trades] with a column of notes. *)
Lemma X2_witness :
  let cells := [Some "a"; None; Some "b"; None; None] in
  let w2 := with_file start "orders/raw/trades.csv"
              (add_column trades "Notes" cells) in
  (clean_fidelity_csv (pandas := pandas_stable) "orders/raw/trades.csv" w2).1
    = (clean_trades pandas_stable).1 /\
  heap (clean_fidelity_csv (pandas := pandas_stable) "orders/raw/trades.csv" w2).2
    = heap (clean_trades pandas_stable).2 /\
  stdout (clean_fidelity_csv (pandas := pandas_stable) "orders/raw/trades.csv" w2).2
    = stdout (clean_trades pandas_stable).2.
Proof.
  apply (X2_extra_column_ignored (pandas := pandas_stable)
           "orders/raw/trades.csv" start trades "Notes").
  - vm_compute. reflexivity.
  - vm_compute. reflexivity.
  - unfold rectangular. simpl. repeat constructor.
  - reflexivity.
  - apply (bool_decide_eq_true_1
             (Py.strip "Notes" ∉ Py.strip <$> columns trades)).
    vm_compute. reflexivity.
Defined.

(** X3 on [trades]: four of its five rows are trades. *)
Lemma X3_witness :
  exists raw acts out,
    disk start !! "orders/raw/trades.csv" = Some raw /\
    (getitem (strip_columns raw) "Action" = Ok (Series acts) \/
     rows raw = [] /\ acts = []) /\
    heap (clean_trades pandas_stable).2 !! 0 = Some (Cleaned out) /\
    length out = length (filter (fun a => mentions_trade a = true) acts) /\
    length out <= length (rows raw).
Proof.
  apply (X3_transaction_count (pandas := pandas_stable) (laws := stable_laws)
           "orders/raw/trades.csv" start 0 (clean_trades pandas_stable).2).
  vm_compute. reflexivity.
Defined.

(** X4 on [trades]. *)
Lemma X4_witness :
  exists raw dates quantities out,
    disk start !! "orders/raw/trades.csv" = Some raw /\
    getitem (strip_columns raw) "Settlement Date" = Ok (Series dates) /\
    getitem (strip_columns raw) "Quantity" = Ok (Series quantities) /\
    heap (clean_trades pandas_stable).2 !! 0 = Some (Cleaned out) /\
    forall i r, (i, r) ∈ out ->
      (exists c, dates !! i = Some c /\
         match c with
         | Some s => parse_date (Pandas := pandas_stable) dates s
                     = Some (settlement_date r)
         | None => settlement_date r = None
         end) /\
      (exists c, quantities !! i = Some c /\
         match quantity r with
         | Float x =>
             x = match c ≫= parse_decimal with
                 | Some (Integer _ y) | Some (Decimal y) => y
                 | None => F64.nan
                 end
         | Int64 n | UInt64 n =>
             exists y, c ≫= parse_decimal = Some (Integer n y)
         end).
Proof.
  apply (X4_dates_and_quantities (pandas := pandas_stable)
           (laws := stable_laws)
           "orders/raw/trades.csv" start 0 (clean_trades pandas_stable).2).
  vm_compute. reflexivity.
Defined.

(** X5 on a directory that holds a header alone. *)
Lemma X5_witness :
  exists w',
    process_file (pandas := pandas_stable) "empty.csv" [] Cases.quiet
      = (Ok ([] ++ [mkProcessed (raw_path "empty.csv") (clean_path "empty.csv")
                                (results_path "empty.csv") 0]), w') /\
    written w' = written Cases.quiet ++
      [(clean_path "empty.csv",
        mkCsv ["Settlement Date"; "Symbol"; "Stock Name"; "Quantity"; "Price";
               "Total Amount"; "Transaction Type"] []);
       (results_path "empty.csv",
        mkCsv ["Settlement Date"; "Symbol"; "Stock Name"; "Transaction Type";
               "Quantity"; "Price"; "Total Amount"] [])] /\
    stdout w' = stdout Cases.quiet ++
      [Processing (raw_path "empty.csv"); CleanedSavedTo (clean_path "empty.csv");
       SummarySavedTo (results_path "empty.csv"); MostRecent [];
       TotalTransactions 0; UniqueStocks 0].
Proof.
  apply (X5_header_only_file (pandas := pandas_stable) "empty.csv" []
           Cases.quiet Cases.header_only).
  - vm_compute. reflexivity.
  - vm_compute. reflexivity.
  - apply (bool_decide_eq_true_1
             (NoDup (Py.strip <$> columns Cases.header_only))).
    vm_compute. reflexivity.
  - reflexivity.
  - reflexivity.
Defined.

(** X6 on the canonical file of [trades], put into the raw directory. *)
Lemma X6_witness :
  let raw := mkRaw (header (to_csv_clean trades_cleaned)) [] in
  let w := with_file start "orders/raw/clean_trades.csv" raw in
  exists w1 w2,
    clean_fidelity_csv (pandas := pandas_stable)
      (raw_path "clean_trades.csv") w
      = (Raise (ValueError ("Missing required columns in file: "
                            +:+ raw_path "clean_trades.csv")), w1) /\
    process_file (pandas := pandas_stable) "clean_trades.csv" [] w
      = (Ok [], w2) /\
    written w2 = written w /\
    ErrorProcessing (raw_path "clean_trades.csv")
      (ValueError ("Missing required columns in file: "
                   +:+ raw_path "clean_trades.csv"))
      ∈ stdout w2.
Proof.
  apply (X6_canonical_file_is_no_input (pandas := pandas_stable)
           "clean_trades.csv" []
           (with_file start "orders/raw/clean_trades.csv"
              (mkRaw (header (to_csv_clean trades_cleaned)) []))
           (mkRaw (header (to_csv_clean trades_cleaned)) []) trades_cleaned).
  - vm_compute. reflexivity.
  - reflexivity.
Defined.

(** X7 on [trades]: two sales and two purchases. *)
Lemma X7_witness :
  exists res w' printed,
    process_file (pandas := pandas_stable) "trades.csv" [] start
      = (Ok res, w') /\
    stdout w' = stdout start ++ printed /\
    TotalTransactions (length trades_cleaned) ∈ printed /\
    sum_list (omap type_count printed) = length trades_cleaned /\
    (forall p n1 n2,
       omap type_count printed !! p = Some n1 ->
       omap type_count printed !! S p = Some n2 -> n2 <= n1).
Proof.
  apply (X7_type_counts (pandas := pandas_stable) (laws := stable_laws)
           "trades.csv" [] start 0 (clean_trades pandas_stable).2
           trades_cleaned).
  - vm_compute. reflexivity.
  - vm_compute. reflexivity.
Defined.

(** X8 on [trades]: three symbols in four transactions. *)
Lemma X8_witness :
  exists res w' printed stocks,
    process_file (pandas := pandas_stable) "trades.csv" [] start
      = (Ok res, w') /\
    stdout w' = stdout start ++ printed /\
    (forall n, UniqueStocks n ∈ printed <-> n = length stocks) /\
    NoDup stocks /\
    (forall s, s ∈ stocks <->
               exists i r, (i, r) ∈ trades_cleaned /\ symbol r = s) /\
    length stocks <= length trades_cleaned.
Proof.
  apply (X8_unique_stocks (pandas := pandas_stable)
           "trades.csv" [] start 0 (clean_trades pandas_stable).2
           trades_cleaned).
  - vm_compute. reflexivity.
  - vm_compute. reflexivity.
Defined.

Lemma csv_name_intro base :
  base <> EmptyString -> csv_name (base +:+ ".csv").
Proof. intros Hne. by exists base. Defined.

(** X9 on two names of the example. *)
Lemma X9_witness :
  clean_path "trades.csv" = "orders/clean/clean_" +:+ "trades.csv" /\
  results_path "trades.csv" = "orders/results/summary_" +:+ "trades.csv" /\
  clean_path "trades.csv" <> results_path "bad.csv" /\
  (clean_path "trades.csv" = clean_path "bad.csv" -> "trades.csv" = "bad.csv") /\
  (results_path "trades.csv" = results_path "bad.csv" ->
   "trades.csv" = "bad.csv").
Proof.
  apply (X9_output_paths "trades.csv" "bad.csv").
  - by apply (csv_name_intro "trades").
  - by apply (csv_name_intro "bad").
Defined.

(** X10 on the directory of the example. *)
Lemma X10_witness :
  exists new,
    written (process_raw_files (pandas := pandas_stable) start).2
      = written start ++ new /\ NoDup new.*1.
Proof.
  apply (X10_outputs_not_overwritten (pandas := pandas_stable)
           start ["short.csv"; "trades.csv"; "bad.csv"]).
  - reflexivity.
  - apply (bool_decide_eq_true_1 (NoDup ["short.csv"; "trades.csv"; "bad.csv"])).
    vm_compute. reflexivity.
  - repeat constructor.
    + by apply (csv_name_intro "short").
    + by apply (csv_name_intro "trades").
    + by apply (csv_name_intro "bad").
Defined.

(** X11 on the directory of the example: three files, one processed. *)
Lemma X11_witness :
  exists processed_files w' printed,
    process_raw_files (pandas := pandas_stable) start
      = (Ok processed_files, w') /\
    p_input <$> processed_files
      = raw_path <$>
          filter (fun name =>
                    is_ok (clean_fidelity_csv (pandas := pandas_stable)
                             (raw_path name) start).1 = true)
                 ["short.csv"; "trades.csv"; "bad.csv"] /\
    (forall p, p ∈ processed_files ->
       exists name, name ∈ ["short.csv"; "trades.csv"; "bad.csv"] /\
         p_input p = raw_path name /\
         p_clean p = clean_path name /\ p_results p = results_path name) /\
    stdout w' = stdout start ++ printed /\
    omap processing_path printed
      = raw_path <$> ["short.csv"; "trades.csv"; "bad.csv"].
Proof.
  apply (X11_processed_files_in_order (pandas := pandas_stable) start
           ["short.csv"; "trades.csv"; "bad.csv"]).
  - reflexivity.
  - discriminate.
Defined.

(** X13 on a file with two columns named Quantity: the error is that of
    [to_numeric] on a frame. *)
Lemma X13_witness :
  raw_path "twice.csv" = raw_path "twice.csv" /\
  (TypeError = ReadError (raw_path "twice.csv") \/
   TypeError
   = ValueError ("Missing required columns in file: " +:+ raw_path "twice.csv") \/
   TypeError = DateParseError \/ TypeError = AttributeError \/
   (exists raw, disk Cases.doubled !! raw_path "twice.csv" = Some raw /\
                ~ NoDup (Py.strip <$> columns raw)) /\
   (TypeError = ValueError "cannot assemble with duplicate keys" \/
    TypeError = TypeError \/ TypeError = ReindexError \/
    empty_frame_error (Pandas := pandas_stable) = Some TypeError)) /\
  (process_file (pandas := pandas_stable) "twice.csv" [] Cases.doubled).1
    = Ok [] /\
  written (process_file (pandas := pandas_stable) "twice.csv" [] Cases.doubled).2
    = written Cases.doubled /\
  heap (process_file (pandas := pandas_stable) "twice.csv" [] Cases.doubled).2
    = heap Cases.doubled.
Proof.
  apply (X13_error_kinds (pandas := pandas_stable) "twice.csv" []
           Cases.doubled (raw_path "twice.csv") TypeError).
  vm_compute. constructor 2. constructor 1.
Defined.

(** X14 on a world without the raw directory and on one whose raw directory
    is empty. *)
Lemma X14_witness :
  process_raw_files (pandas := pandas_stable) (state Cases.bare)
  = (Raise (ValueError "'orders/raw' directory not found. Please create it and add your CSV files."),
     state Cases.bare) /\
  process_raw_files (pandas := pandas_stable)
    (state (setup_directories Cases.bare).2)
  = (Raise (ValueError "No CSV files found in 'orders/raw' directory."),
     state (setup_directories Cases.bare).2).
Proof.
  split.
  - apply (proj1 (X14_run_errors (pandas := pandas_stable) (state Cases.bare))).
    reflexivity.
  - apply (proj1 (proj2 (X14_run_errors (pandas := pandas_stable)
                           (state (setup_directories Cases.bare).2)))).
    reflexivity.
Defined.

(** X16 on a machine without directories and on the directory of the
    example. *)
Lemma X16_witness :
  main (pandas := pandas_stable) Cases.bare
    = ([MainError (ValueError "No CSV files found in 'orders/raw' directory.")],
       (setup_directories Cases.bare).2) /\
  exists processed_files w',
    process_raw_files (pandas := pandas_stable) (state Cases.loaded)
      = (Ok processed_files, w') /\
    main (pandas := pandas_stable) Cases.loaded
      = (flat_map summary_lines processed_files,
         mkMachine (directories (setup_directories Cases.loaded).2) w') /\
    forall e, MainError e ∉ (main (pandas := pandas_stable) Cases.loaded).1.
Proof.
  split.
  - apply (X16_main_reports (pandas := pandas_stable) Cases.bare).
    left. reflexivity.
  - apply (proj2 (X16_main_reports (pandas := pandas_stable) Cases.loaded)
             ["short.csv"; "trades.csv"; "bad.csv"]).
    + reflexivity.
    + discriminate.
Defined.
